(** * Notebook alerts: the dispatcher, the error hook and the notifier's
      command line, embedded from [notebook_auto_alert.py] and
      [_show_alert.py].

    The Python code is effectful: it prints, spawns a process, reads the
    interpreter's environment and mutates two module globals and the
    shell's [showtraceback] attribute.  It is embedded in a small monad
    that threads the session state, records the observable events in a
    trace, and carries Python exceptions. *)

From Stdlib Require Import NArith ZArith List String Ascii Lia.
From stdpp Require Import base option list strings gmap.

Local Open Scope N_scope.
Local Open Scope list_scope.
Local Open Scope nat_scope.

(** ** Python values *)

(** A Python [str] is a sequence of code points. *)
Abbreviation str := (list N).

(** An ASCII literal as a [str]. *)
Fixpoint lit (s : string) : str :=
  match s with
  | EmptyString => []
  | String a r => N_of_ascii a :: lit r
  end.

Arguments lit : simpl never.

Definition CHECK_MARK : N := 0x2713%N.    (* U+2713 *)
Definition BALLOT_X : N := 0x2717%N.      (* U+2717 *)
Definition WARNING_SIGN : N := 0x26A0%N.  (* U+26A0 *)

(** Truthiness of a [str]: non-empty. *)
Definition truthy (s : str) : bool :=
  match s with [] => false | _ :: _ => true end.

(** [s.endswith(suffix)]. *)
Definition endswith (s suffix : str) : bool := bool_decide (suffix `suffix_of` s).

(** [needle in haystack] for strings, as a proposition. *)
Definition contains (haystack needle : str) : Prop :=
  exists pre post, haystack = pre ++ needle ++ post.

(** The objects a namespace entry may hold, as far as [Path(...)] tells
    them apart: only a [str] is path-like. *)
Inductive pyobj :=
| PyNone
| PyInt (z : Z)
| PyStr (s : str).

(** A raised exception: its class name and [str(e)].  Every exception of
    the model derives from [Exception]. *)
Record exn := { exn_type : str; exn_text : str }.

(** The result of calling into the environment. *)
Inductive probe (A : Type) :=
| Returns (a : A)
| Raises (e : exn).
Arguments Returns {A} a.
Arguments Raises {A} e.

(** [*args, **kwargs] of a call to [showtraceback]. *)
Record call_args := { positional : list pyobj; keywords : list (str * pyobj) }.

(** ** Session state *)

(** The value of [ip.showtraceback]: the shell's own routine, or a
    [custom_showtraceback] closure over the routine it captured. *)
Inductive routine :=
| Original
| Custom (original_showtraceback : routine).

Fixpoint layers (r : routine) : nat :=
  match r with
  | Original => 0
  | Custom r' => S (layers r')
  end.

(** What [from IPython import get_ipython; get_ipython()] finds. *)
Inductive ipython_env :=
| NotImportable                         (* the import raises ImportError *)
| NoInstance                            (* get_ipython() is None *)
| Instance (showtraceback : routine).

Record session := {
  _error_handler_installed : bool;
  _error_occurred : bool;
  ipython : ipython_env
}.

Definition wrapper_layers (s : session) : nat :=
  match ipython s with
  | Instance r => layers r
  | _ => 0
  end.

(** ** The environment a call runs in *)

(** What [sys.exc_info()] returns: the class (its [__name__]) and the
    value (what [str(exc_value)] does), each with what [bool(...)] does on
    it: a class or an instance may be falsy, and asking may raise. *)
Record exc_class := { class_name : str; class_truth : probe bool }.
Record exc_instance := { str_of_value : probe str; value_truth : probe bool }.

Record world := {
  (* label probing *)
  connection_file_probe : probe unit;
  hist_file_probe : probe unit;
  user_ns : probe (gmap (list N) pyobj);
  parent_cmdline : probe (option (list str));
  (* notifier lookup: str(dir / "_show_alert.py") for the three
     directories, and Path.exists; Path.cwd(), Path.home() and
     Path.exists() may raise *)
  candidate_script_dir : str;
  candidate_cwd : probe str;
  candidate_home : probe str;
  path_exists : str -> probe bool;
  (* process spawn *)
  sys_executable : str;
  Popen : list str -> probe unit;
  (* current exception *)
  exc_info : option exc_class * option exc_instance
}.

(** ** Observable events *)

Inductive event :=
| EvPrint (line : str)
| EvPopen (argv : list str)
| EvOriginal (args : call_args)
| EvNotify (success : bool) (message : str) (notebook_name : option str).

Definition trace := list event.

(** ** The monad: state, trace and exceptions *)

Inductive outcome (A : Type) :=
| Normal (a : A)
| Raised (e : exn).
Arguments Normal {A} a.
Arguments Raised {A} e.

Definition M (A : Type) : Type := session -> outcome A * session * trace.

Definition ret {A} (a : A) : M A := fun s => (Normal a, s, []).

Definition raise {A} (e : exn) : M A := fun s => (Raised e, s, []).

Definition bind {A B} (m : M A) (f : A -> M B) : M B :=
  fun s =>
    match m s with
    | (Normal a, s1, t1) =>
        match f a s1 with
        | (r, s2, t2) => (r, s2, t1 ++ t2)
        end
    | (Raised e, s1, t1) => (Raised e, s1, t1)
    end.

(** [try: m except: h]. *)
Definition try_catch {A} (m : M A) (h : exn -> M A) : M A :=
  fun s =>
    match m s with
    | (Raised e, s1, t1) =>
        match h e s1 with
        | (r, s2, t2) => (r, s2, t1 ++ t2)
        end
    | res => res
    end.

Definition emit (e : event) : M unit := fun s => (Normal tt, s, [e]).

Definition get : M session := fun s => (Normal s, s, []).

Definition put (s' : session) : M unit := fun _ => (Normal tt, s', []).

Definition of_probe {A} (p : probe A) : M A :=
  match p with
  | Returns a => ret a
  | Raises e => raise e
  end.

(** Sequencing of calls into the environment: the first that raises
    ends the computation. *)
Definition probe_bind {A B} (p : probe A) (f : A -> probe B) : probe B :=
  match p with
  | Returns a => f a
  | Raises e => Raises e
  end.

Notation "x <- m ;; k" := (bind m (fun x => k))
  (at level 100, m at next level, right associativity).
Notation "m ;; k" := (bind m (fun _ => k))
  (at level 100, right associativity).

Definition print (line : str) : M unit := emit (EvPrint line).

Definition result_of {A} (r : outcome A * session * trace) : outcome A := r.1.1.
Definition session_of {A} (r : outcome A * session * trace) : session := r.1.2.
Definition trace_of {A} (r : outcome A * session * trace) : trace := r.2.

(** ** [_show_alert.py]: the notifier *)

(** What [show_alert_window] decides before it draws: colours, title,
    sound and the text shown.  [time_str] is the formatted clock. *)
Record alert_view := {
  bg_color : str;
  title_text : str;
  sound : str;
  display_msg : str;
  btn_bg : str;
  notification_text : str
}.

Definition COMPLETE_TITLE : str :=
  [CHECK_MARK] ++ lit " NOTEBOOK COMPLETE " ++ [CHECK_MARK].

Definition ERROR_TITLE : str :=
  [BALLOT_X] ++ lit " NOTEBOOK ERROR " ++ [BALLOT_X].

Definition NEWLINE : N := 10%N.

Definition show_alert_window (time_str : str) (success : bool)
    (message notebook_name : str) : alert_view :=
  let display_msg :=
    (if truthy notebook_name then notebook_name ++ [NEWLINE; NEWLINE] else [])
    ++ (if truthy message then message else lit "Completed at " ++ time_str) in
  {| bg_color := if success then lit "#90EE90" else lit "#FFB6C1";
     title_text := if success then COMPLETE_TITLE else ERROR_TITLE;
     sound := if success then lit "Glass" else lit "Basso";
     display_msg := display_msg;
     btn_bg := if success then lit "#2C3E50" else lit "#8B0000";
     notification_text := take 100 display_msg |}.

(** Where [show_alert_window] puts the window: [(screen - window) // 2] on
    each axis, with Python's floor division. *)
Definition window_width : Z := 650.
Definition window_height : Z := 300.

Definition window_position (screen_width screen_height : Z) : Z * Z :=
  (((screen_width - window_width) / 2)%Z, ((screen_height - window_height) / 2)%Z).

(** How a run of the script ends: [sys.exit] after printing, or a window. *)
Inductive notifier_run :=
| Exited (stdout : list str) (status : Z)
| Shown (view : alert_view).

Definition USAGE : str :=
  lit "Usage: python _show_alert.py <success|error> [message] [notebook_name]".

(** The [__main__] block, on [sys.argv]. *)
Definition main (time_str : str) (sys_argv : list str) : notifier_run :=
  if length sys_argv <? 2 then Exited [USAGE] 1
  else
    let alert_type := nth 1 sys_argv [] in
    let message := if 2 <? length sys_argv then nth 2 sys_argv [] else [] in
    let notebook_name := if 3 <? length sys_argv then nth 3 sys_argv [] else [] in
    let success := bool_decide (alert_type = lit "success") in
    Shown (show_alert_window time_str success message notebook_name).

(** ** [notebook_auto_alert.py] *)

Definition ImportError : exn :=
  {| exn_type := lit "ImportError"; exn_text := lit "No module named IPython" |}.

Definition TypeError : exn :=
  {| exn_type := lit "TypeError";
     exn_text := lit "expected str, bytes or os.PathLike object" |}.

(** The interactive shell object, when there is one. *)
Inductive shell := InteractiveShell.

(** [from IPython import get_ipython; ip = get_ipython()]. *)
Definition get_ipython : M (option shell) :=
  s <- get ;;
  match ipython s with
  | NotImportable => raise ImportError
  | NoInstance => ret None
  | Instance _ => ret (Some InteractiveShell)
  end.

Definition set_error_occurred (b : bool) : M unit :=
  s <- get ;;
  put {| _error_handler_installed := _error_handler_installed s;
         _error_occurred := b;
         ipython := ipython s |}.

Definition set_error_handler_installed (b : bool) : M unit :=
  s <- get ;;
  put {| _error_handler_installed := b;
         _error_occurred := _error_occurred s;
         ipython := ipython s |}.

(** [ip.showtraceback = r]. *)
Definition set_showtraceback (ip : shell) (r : routine) : M unit :=
  s <- get ;;
  put {| _error_handler_installed := _error_handler_installed s;
         _error_occurred := _error_occurred s;
         ipython := Instance r |}.

Section Program.

(** [Path(p).stem] on a [str], left to pathlib. *)
Variable stem : str -> str.

(** [Path(o).stem]: the constructor refuses what is not path-like. *)
Definition Path_stem (o : pyobj) : M str :=
  match o with
  | PyStr p => ret (stem p)
  | _ => raise TypeError
  end.

Definition VSC_KEY : str := lit "__vsc_ipynb_file__".

(** The body of the third [try] of [_get_notebook_name]: the variable VS
    Code injects.  [Some name] is a [return]; [None] falls out of the
    [try]. *)
Definition probe_vsc_variable (w : world) : M (option str) :=
  ns <- of_probe (user_ns w) ;;
  match ns !! VSC_KEY with
  | Some nb_path => name <- Path_stem nb_path ;; ret (Some name)
  | None => ret None
  end.

Definition is_ipynb (arg : str) : bool := endswith arg (lit ".ipynb").

(** The body of the fourth [try]: the parent process's command line. *)
Definition probe_parent_cmdline (w : world) : M (option str) :=
  parent <- of_probe (parent_cmdline w) ;;
  match parent with
  | Some cmdline =>
      match List.find is_ipynb cmdline with
      | Some arg => ret (Some (stem arg))
      | None => ret None
      end
  | None => ret None
  end.

Definition swallow {A} (fallthrough : A) (m : M A) : M A :=
  try_catch m (fun _ => ret fallthrough).

Definition _get_notebook_name (w : world) : M (option str) :=
  try_catch
    (ip <- get_ipython ;;
     match ip with
     | None => ret None
     | Some _ =>
         swallow tt (of_probe (connection_file_probe w)) ;;
         swallow tt (of_probe (hist_file_probe w)) ;;
         a <- swallow None (probe_vsc_variable w) ;;
         match a with
         | Some name => ret (Some name)
         | None =>
             b <- swallow None (probe_parent_cmdline w) ;;
             match b with
             | Some name => ret (Some name)
             | None => ret None
             end
         end
     end)
    (fun _ => ret None).

(** The lookup has no effect on the session and prints nothing, but each
    of its calls into pathlib may raise, and nothing in it catches. *)
Definition _get_alert_script_path (w : world) : probe (option str) :=
  let alert_script := candidate_script_dir w in
  probe_bind (path_exists w alert_script) (fun found =>
  if found then Returns (Some alert_script)
  else
    probe_bind (candidate_cwd w) (fun alert_script =>
    probe_bind (path_exists w alert_script) (fun found =>
    if found then Returns (Some alert_script)
    else
      probe_bind (candidate_home w) (fun alert_script =>
      probe_bind (path_exists w alert_script) (fun found =>
      if found then Returns (Some alert_script)
      else Returns None))))).

Definition NOT_FOUND_WARNING : str :=
  WARNING_SIGN :: lit " Warning: _show_alert.py not found. Cannot show desktop alert.".

Definition LAUNCH_WARNING (e : exn) : str :=
  WARNING_SIGN :: lit " Warning: Could not launch alert: " ++ exn_text e.

(** The second line of both degraded paths. *)
Definition console_line (success : bool) (message : str) : str :=
  if truthy message
  then CHECK_MARK :: lit " " ++ (if success then lit "SUCCESS" else lit "ERROR")
                  ++ lit ": " ++ message
  else [].

(** [if not alert_script]: [None] and the empty string are falsy. *)
Definition located (alert_script : option str) : option str :=
  match alert_script with
  | Some p => if truthy p then Some p else None
  | None => None
  end.

Definition _show_alert (w : world) (success : bool) (message : str)
    (notebook_name : option str) : M unit :=
  emit (EvNotify success message notebook_name) ;;
  alert_script <- of_probe (_get_alert_script_path w) ;;
  match located alert_script with
  | None =>
      print NOT_FOUND_WARNING ;;
      print (console_line success message)
  | Some alert_script =>
      let alert_type := if success then lit "success" else lit "error" in
      notebook_name <-
        match notebook_name with
        | None => probed <- _get_notebook_name w ;;
                  ret (match probed with
                       | Some n => if truthy n then n else []
                       | None => []
                       end)
        | Some n => ret n
        end ;;
      let argv := [sys_executable w; alert_script; alert_type; message; notebook_name] in
      try_catch
        (of_probe (Popen w argv) ;; emit (EvPopen argv))
        (fun e =>
           print (LAUNCH_WARNING e) ;;
           print (console_line success message))
  end.

Definition done_default : str := lit "Notebook completed successfully!".
Definition error_default : str := lit "Notebook encountered an error!".

Definition done (w : world) (message : str) : M unit :=
  _show_alert w true message None ;;
  print (CHECK_MARK :: lit " " ++ message).

Definition error (w : world) (message : str) : M unit :=
  _show_alert w false message None ;;
  print (BALLOT_X :: lit " " ++ message).

Definition GENERIC_ERROR : str := lit "An error occurred during execution".

(** [bool(o)] for an object that may be [None]. *)
Definition truth {A} (o : option A) (truth_of : A -> probe bool) : M bool :=
  match o with
  | None => ret false
  | Some a => of_probe (truth_of a)
  end.

(** The inner [try] of [custom_showtraceback]; [exc_type and exc_value]
    asks the class first and the value only when the class is truthy. *)
Definition extract_error_msg (w : world) : M str :=
  try_catch
    (let '(exc_type, exc_value) := exc_info w in
     type_truthy <- truth exc_type class_truth ;;
     both_truthy <-
       (if type_truthy then truth exc_value value_truth else ret false) ;;
     match both_truthy, exc_type, exc_value with
     | true, Some exc_type, Some exc_value =>
         text <- of_probe (str_of_value exc_value) ;;
         ret (class_name exc_type ++ lit ": " ++ take 100 text)
     | _, _, _ => ret GENERIC_ERROR
     end)
    (fun _ => ret GENERIC_ERROR).

Definition custom_showtraceback (w : world)
    (original_showtraceback : call_args -> M unit) (args : call_args) : M unit :=
  original_showtraceback args ;;
  s <- get ;;
  if negb (_error_occurred s) then
    set_error_occurred true ;;
    error_msg <- extract_error_msg w ;;
    _show_alert w false error_msg None
  else ret tt.

(** Calling the value of [ip.showtraceback]. *)
Fixpoint call_routine (w : world) (r : routine) (args : call_args) : M unit :=
  match r with
  | Original => emit (EvOriginal args)
  | Custom original_showtraceback =>
      custom_showtraceback w (call_routine w original_showtraceback) args
  end.

(** [original_showtraceback = ip.showtraceback]. *)
Definition get_showtraceback (ip : shell) : M routine :=
  s <- get ;;
  match ipython s with
  | Instance r => ret r
  | _ => raise {| exn_type := lit "AttributeError"; exn_text := lit "showtraceback" |}
  end.

Definition ENABLED_LINE : str :=
  CHECK_MARK :: lit " Auto-error detection enabled - will alert if any cell fails!".

Definition _setup_auto_error_detection : M unit :=
  s <- get ;;
  if _error_handler_installed s then ret tt
  else
    try_catch
      (ip <- get_ipython ;;
       match ip with
       | None => ret tt
       | Some ip =>
           original_showtraceback <- get_showtraceback ip ;;
           set_showtraceback ip (Custom original_showtraceback) ;;
           set_error_handler_installed true ;;
           print ENABLED_LINE
       end)
      (fun _ => ret tt).

Definition BANNER : list str :=
  [ CHECK_MARK :: lit " Notebook alerts enabled!";
    lit "  - Errors will trigger automatic red alerts";
    lit "  - Call done() in last cell for success alert" ].

Definition enable_alerts : M unit :=
  _setup_auto_error_detection ;;
  print (CHECK_MARK :: lit " Notebook alerts enabled!") ;;
  print (lit "  - Errors will trigger automatic red alerts") ;;
  print (lit "  - Call done() in last cell for success alert").

(** Importing the module: the globals start false and the hook is set up. *)
Definition fresh_session (ip : ipython_env) : session :=
  {| _error_handler_installed := false; _error_occurred := false; ipython := ip |}.

Definition import_module : M unit := _setup_auto_error_detection.

(** The host's side of an uncaught exception: an interactive shell shows it
    through its current [showtraceback]; without a shell nothing of this
    module is reached. *)
Definition uncaught_exception (w : world) (args : call_args) : M unit :=
  s <- get ;;
  match ipython s with
  | Instance r => call_routine w r args
  | _ => ret tt
  end.

(** ** Sessions as sequences of calls *)

(** What a notebook does with the module once it is imported. *)
Inductive command :=
| CmdImport
| CmdEnable
| CmdDone (w : world) (message : str)
| CmdError (w : world) (message : str)
| CmdException (w : world) (args : call_args).

Definition run_command (c : command) : M unit :=
  match c with
  | CmdImport => import_module
  | CmdEnable => enable_alerts
  | CmdDone w message => done w message
  | CmdError w message => error w message
  | CmdException w args => uncaught_exception w args
  end.

Fixpoint run_commands (cs : list command) : M unit :=
  match cs with
  | [] => ret tt
  | c :: rest => run_command c ;; run_commands rest
  end.

(** The host hands the module a shell whose routine is its own. *)
Definition unwrapped (ip : ipython_env) : Prop :=
  match ip with
  | Instance r => r = Original
  | _ => True
  end.

(** The states a session passes through: the import, then any calls. *)
Inductive reachable : session -> Prop :=
| reach_import ip :
    unwrapped ip -> reachable (session_of (import_module (fresh_session ip)))
| reach_step s c :
    reachable s -> reachable (session_of (run_command c s)).

(** ** Reading traces *)

Definition is_notify (e : event) : bool :=
  match e with EvNotify _ _ _ => true | _ => false end.

Definition is_notify_with (success : bool) (e : event) : bool :=
  match e with EvNotify b _ _ => eqb b success | _ => false end.

(** The dispatcher calls of a trace, and how many carry a given status. *)
Definition notifications (t : trace) : list event := List.filter is_notify t.

Definition dispatches (success : bool) (t : trace) : nat :=
  length (List.filter (is_notify_with success) t).

(** The alerts the hook itself dispatches along a run of commands: those
    in the traces of the exceptions. *)
Fixpoint hook_alerts (cs : list command) (s : session) : nat :=
  match cs with
  | [] => 0
  | c :: rest =>
      let res := run_command c s in
      (match c with
       | CmdException _ _ => dispatches false (trace_of res)
       | _ => 0
       end) + hook_alerts rest (session_of res)
  end.

Definition is_exception (c : command) : bool :=
  match c with CmdException _ _ => true | _ => false end.

Fixpoint times (n : nat) (m : M unit) : M unit :=
  match n with
  | 0 => ret tt
  | S n' => m ;; times n' m
  end.

Definition with_flags (installed occurred : bool) (s : session) : session :=
  {| _error_handler_installed := installed;
     _error_occurred := occurred;
     ipython := ipython s |}.

(** The label a dispatch ends up with. *)
Definition label_for (w : world) (notebook_name : option str) (s : session) : str :=
  match notebook_name with
  | Some n => n
  | None =>
      match result_of (_get_notebook_name w s) with
      | Normal (Some n) => n
      | _ => []
      end
  end.

Definition status_token (success : bool) : str :=
  if success then lit "success" else lit "error".

(** Label resolution in the spec's words: strategies tried in order, a
    failing one counting as absent, the first present result taken. *)
Definition strategy_result (strategy : M (option str)) (s : session) : option str :=
  match result_of (strategy s) with
  | Normal (Some n) => Some n
  | _ => None
  end.

Fixpoint first_successful (results : list (option str)) : option str :=
  match results with
  | [] => None
  | Some n :: _ => Some n
  | None :: rest => first_successful rest
  end.

(** What a dispatch does after the call itself: the launch, or the two
    console lines of a degraded path, or nothing when the lookup raises. *)
Definition launch_events (w : world) (success : bool) (message : str)
    (notebook_name : option str) (s : session) : trace :=
  match _get_alert_script_path w with
  | Raises _ => []
  | Returns found =>
      match located found with
      | None => [EvPrint NOT_FOUND_WARNING; EvPrint (console_line success message)]
      | Some alert_script =>
          let argv := [sys_executable w; alert_script; status_token success;
                       message; label_for w notebook_name s] in
          match Popen w argv with
          | Returns _ => [EvPopen argv]
          | Raises e => [EvPrint (LAUNCH_WARNING e);
                         EvPrint (console_line success message)]
          end
      end
  end.

(** How a dispatch ends: normally, or with what the lookup raised. *)
Definition dispatch_result (w : world) : outcome unit :=
  match _get_alert_script_path w with
  | Returns _ => Normal tt
  | Raises e => Raised e
  end.

(** How a call of the shell's routine ends: the hook dispatches, and so
    may raise, only when the flag is down and there is a wrapper. *)
Definition routine_result (w : world) (r : routine) (s : session) : outcome unit :=
  if _error_occurred s then Normal tt
  else match r with
       | Original => Normal tt
       | Custom _ => dispatch_result w
       end.

(** The message the hook dispatches. *)
Definition error_msg_of (w : world) : str :=
  match exc_info w with
  | (Some exc_type, Some exc_value) =>
      match class_truth exc_type, value_truth exc_value, str_of_value exc_value with
      | Returns true, Returns true, Returns text =>
          class_name exc_type ++ lit ": " ++ take 100 text
      | _, _, _ => GENERIC_ERROR
      end
  | _ => GENERIC_ERROR
  end.

Definition is_original (e : event) : bool :=
  match e with EvOriginal _ => true | _ => false end.

(** What the wrapper adds after the routine it chains to. *)
Definition hook_events (w : world) (s1 : session) : trace :=
  if _error_occurred s1 then []
  else EvNotify false (error_msg_of w) None ::
       launch_events w false (error_msg_of w) None s1.

(** The session a call of the shell's routine leaves: the flag is raised
    as soon as one wrapper ran. *)
Definition after_routine (r : routine) (s : session) : session :=
  match r with
  | Original => s
  | Custom _ => with_flags (_error_handler_installed s) true s
  end.

(** The invariant of a session: the installed flag says whether the
    shell's routine is wrapped, and it is wrapped at most once. *)
Definition consistent (s : session) : Prop :=
  match ipython s with
  | Instance r => r = if _error_handler_installed s then Custom Original else Original
  | _ => _error_handler_installed s = false
  end.

(** The hook in place: the shell's routine is the wrapper over the host's. *)
Definition hooked (s : session) : Prop :=
  ipython s = Instance (Custom Original) /\ _error_handler_installed s = true.

Definition is_popen (e : event) : bool :=
  match e with EvPopen _ => true | _ => false end.

Definition is_print (e : event) : bool :=
  match e with EvPrint _ => true | _ => false end.

(** Two environments in which a launch goes the same way: the same
    candidate paths, the same files, the same interpreter and spawn. *)
Definition same_launcher (w w' : world) : Prop :=
  candidate_script_dir w = candidate_script_dir w'
  /\ candidate_cwd w = candidate_cwd w'
  /\ candidate_home w = candidate_home w'
  /\ (forall p, path_exists w p = path_exists w' p)
  /\ sys_executable w = sys_executable w'
  /\ (forall argv, Popen w argv = Popen w' argv).

(** The three places searched, in order. *)
Definition candidates (w : world) : list (probe str) :=
  [Returns (candidate_script_dir w); candidate_cwd w; candidate_home w].

(** A place that could be named and holds no script. *)
Definition holds_nothing (w : world) (candidate : probe str) : Prop :=
  exists q, candidate = Returns q /\ path_exists w q = Returns false.

(** What a session looks like after the import: with a shell the hook is
    installed, once, over the host's routine; without one both flags are
    down. *)
Definition settled (s : session) : Prop :=
  match ipython s with
  | Instance r => _error_handler_installed s = true /\ r = Custom Original
  | _ => _error_handler_installed s = false /\ _error_occurred s = false
  end.

(** A call whose notifier lookup returns; an import and
    [enable_alerts()] make no lookup. *)
Definition calm (c : command) : Prop :=
  match c with
  | CmdDone w _ | CmdError w _ | CmdException w _ => dispatch_result w = Normal tt
  | CmdImport | CmdEnable => True
  end.

(** The session after a run of calls made one after the other, each
    whether or not the one before raised, as the cells of a notebook
    are. *)
Fixpoint session_after (cs : list command) (s : session) : session :=
  match cs with
  | [] => s
  | c :: rest => session_after rest (session_of (run_command c s))
  end.

(** ** Sample inputs *)

(** A POSIX [stem] for the examples, as pathlib computes it before
    Python 3.14: the last component that is neither empty nor [.], cut at
    its last dot when that dot is neither its first nor its last
    character. *)
Fixpoint components (p acc : str) : list str :=
  match p with
  | [] => [rev acc]
  | c :: rest =>
      if N.eqb c 47%N then rev acc :: components rest []
      else components rest (c :: acc)
  end.

Definition is_part (component : str) : bool :=
  match component with
  | [] => false
  | [c] => negb (N.eqb c 46%N)
  | _ => true
  end.

Definition last_component (p : str) : str :=
  default [] (last (List.filter is_part (components p []))).

Fixpoint rfind_dot (name : str) (i : nat) (found : option nat) : option nat :=
  match name with
  | [] => found
  | c :: rest => rfind_dot rest (S i) (if N.eqb c 46%N then Some i else found)
  end.

Definition posix_stem (p : str) : str :=
  let name := last_component p in
  match rfind_dot name 0 None with
  | Some i => if (0 <? i) && (i <? length name - 1) then take i name else name
  | None => name
  end.

Definition sample_world : world :=
  {| connection_file_probe :=
       Raises {| exn_type := lit "FileNotFoundError"; exn_text := lit "kernel.json" |};
     hist_file_probe := Returns tt;
     user_ns := Returns {[ VSC_KEY := PyStr (lit "/home/u/analysis.ipynb") ]};
     parent_cmdline :=
       Returns (Some [lit "python"; lit "-m"; lit "ipykernel_launcher"]);
     candidate_script_dir := lit "/pkg/_show_alert.py";
     candidate_cwd := Returns (lit "/work/_show_alert.py");
     candidate_home := Returns (lit "/home/u/_show_alert.py");
     path_exists := fun p => Returns (bool_decide (p = lit "/pkg/_show_alert.py"));
     sys_executable := lit "/usr/bin/python3";
     Popen := fun _ => Returns tt;
     exc_info := (Some {| class_name := lit "ValueError";
                          class_truth := Returns true |},
                  Some {| str_of_value := Returns (lit "bad value");
                          value_truth := Returns true |}) |}.

(** The same machine with [_show_alert.py] nowhere to be found. *)
Definition missing_world : world :=
  {| connection_file_probe := connection_file_probe sample_world;
     hist_file_probe := hist_file_probe sample_world;
     user_ns := user_ns sample_world;
     parent_cmdline := parent_cmdline sample_world;
     candidate_script_dir := candidate_script_dir sample_world;
     candidate_cwd := candidate_cwd sample_world;
     candidate_home := candidate_home sample_world;
     path_exists := fun _ => Returns false;
     sys_executable := sys_executable sample_world;
     Popen := Popen sample_world;
     exc_info := exc_info sample_world |}.

(** A machine that refuses to spawn, probed from a terminal: no injected
    variable, the notebook named on the parent's command line, and a long
    exception text. *)
Definition refusing_world : world :=
  {| connection_file_probe := Returns tt;
     hist_file_probe := Returns tt;
     user_ns := Returns (<[ VSC_KEY := PyNone ]> ∅);
     parent_cmdline :=
       Returns (Some [lit "jupyter"; lit "run"; lit "runs/report.ipynb"]);
     candidate_script_dir := lit "/pkg/_show_alert.py";
     candidate_cwd := Returns (lit "/work/_show_alert.py");
     candidate_home := Returns (lit "/home/u/_show_alert.py");
     path_exists := fun p => Returns (bool_decide (p = lit "/home/u/_show_alert.py"));
     sys_executable := lit "/usr/bin/python3";
     Popen := fun _ =>
       Raises {| exn_type := lit "OSError"; exn_text := lit "fork failed" |};
     exc_info := (Some {| class_name := lit "KeyError";
                          class_truth := Returns true |},
                  Some {| str_of_value := Returns (replicate 150 120%N);
                          value_truth := Returns true |}) |}.

(** [sample_world] run from a working directory that has been removed,
    with the module installed away from [_show_alert.py]: [Path.cwd()]
    raises. *)
Definition FileNotFoundError : exn :=
  {| exn_type := lit "FileNotFoundError";
     exn_text := lit "[Errno 2] No such file or directory" |}.

Definition removed_cwd_world : world :=
  {| connection_file_probe := connection_file_probe sample_world;
     hist_file_probe := hist_file_probe sample_world;
     user_ns := user_ns sample_world;
     parent_cmdline := parent_cmdline sample_world;
     candidate_script_dir := lit "/site-packages/_show_alert.py";
     candidate_cwd := Raises FileNotFoundError;
     candidate_home := Returns (lit "/home/u/_show_alert.py");
     path_exists := fun p => Returns (bool_decide (p = lit "/home/u/_show_alert.py"));
     sys_executable := sys_executable sample_world;
     Popen := Popen sample_world;
     exc_info := exc_info sample_world |}.

(** [sample_world] with an exception whose instance is falsy, as one that
    defines [__len__] and is empty. *)
Definition falsy_exception_world : world :=
  {| connection_file_probe := connection_file_probe sample_world;
     hist_file_probe := hist_file_probe sample_world;
     user_ns := user_ns sample_world;
     parent_cmdline := parent_cmdline sample_world;
     candidate_script_dir := candidate_script_dir sample_world;
     candidate_cwd := candidate_cwd sample_world;
     candidate_home := candidate_home sample_world;
     path_exists := path_exists sample_world;
     sys_executable := sys_executable sample_world;
     Popen := Popen sample_world;
     exc_info := (Some {| class_name := lit "EmptyBatch";
                          class_truth := Returns true |},
                  Some {| str_of_value := Returns (lit "no rows");
                          value_truth := Returns false |}) |}.

(** [sample_world] seen from a terminal by a process that may not read
    its parent: the launcher is the same, every label probe differs. *)
Definition unprobed_world : world :=
  {| connection_file_probe := Returns tt;
     hist_file_probe :=
       Raises {| exn_type := lit "AttributeError"; exn_text := lit "hist_file" |};
     user_ns := Raises {| exn_type := lit "AttributeError"; exn_text := lit "user_ns" |};
     parent_cmdline :=
       Raises {| exn_type := lit "AccessDenied"; exn_text := lit "pid 1" |};
     candidate_script_dir := candidate_script_dir sample_world;
     candidate_cwd := candidate_cwd sample_world;
     candidate_home := candidate_home sample_world;
     path_exists := path_exists sample_world;
     sys_executable := sys_executable sample_world;
     Popen := Popen sample_world;
     exc_info := (None, None) |}.

(** [refusing_world] with the two inert probes failing the other way. *)
Definition reprobed_world : world :=
  {| connection_file_probe :=
       Raises {| exn_type := lit "PermissionError"; exn_text := lit "kernel.json" |};
     hist_file_probe :=
       Raises {| exn_type := lit "AttributeError"; exn_text := lit "hist_file" |};
     user_ns := user_ns refusing_world;
     parent_cmdline := parent_cmdline refusing_world;
     candidate_script_dir := lit "/elsewhere/_show_alert.py";
     candidate_cwd := candidate_cwd refusing_world;
     candidate_home := candidate_home refusing_world;
     path_exists := fun _ => Returns true;
     sys_executable := lit "python";
     Popen := fun _ => Returns tt;
     exc_info := (None, None) |}.

Definition no_args : call_args := {| positional := []; keywords := [] |}.

(** A notebook kernel just after the import, and a plain script. *)
Definition kernel_session : session :=
  session_of (import_module (fresh_session (Instance Original))).

Definition script_session : session :=
  session_of (import_module (fresh_session NoInstance)).

(** ** Running the monad *)

Ltac run_monad :=
  cbv [bind try_catch swallow ret raise get put emit print of_probe
       result_of session_of trace_of
       get_ipython get_showtraceback set_showtraceback
       set_error_occurred set_error_handler_installed Path_stem] in *;
  simpl in *.

Lemma probe_vsc_variable_run (w : world) (s : session) :
  probe_vsc_variable w s =
  (match user_ns w with
   | Returns ns =>
       match ns !! VSC_KEY with
       | Some (PyStr p) => Normal (Some (stem p))
       | Some _ => Raised TypeError
       | None => Normal None
       end
   | Raises e => Raised e
   end, s, []).
Proof.
  unfold probe_vsc_variable.
  destruct (user_ns w) as [ns|e]; run_monad; [|reflexivity].
  destruct (ns !! VSC_KEY) as [[| |p]|]; reflexivity.
Qed.

Lemma probe_parent_cmdline_run (w : world) (s : session) :
  probe_parent_cmdline w s =
  (match parent_cmdline w with
   | Returns (Some cmdline) => Normal (stem <$> List.find is_ipynb cmdline)
   | Returns None => Normal None
   | Raises e => Raised e
   end, s, []).
Proof.
  unfold probe_parent_cmdline.
  destruct (parent_cmdline w) as [[cmd|]|e]; run_monad; try reflexivity.
  destruct (List.find is_ipynb cmd); reflexivity.
Qed.

(** Label resolution computed: the first present result of the two
    strategies when there is a shell, nothing otherwise. *)
Lemma _get_notebook_name_run (w : world) (s : session) :
  _get_notebook_name w s =
  (Normal (match ipython s with
           | Instance _ =>
               first_successful [strategy_result (probe_vsc_variable w) s;
                                 strategy_result (probe_parent_cmdline w) s]
           | _ => None
           end), s, []).
Proof.
  unfold _get_notebook_name, strategy_result, probe_vsc_variable,
    probe_parent_cmdline.
  destruct s as [i o ip]; destruct ip as [| |r]; run_monad; try reflexivity.
  destruct (connection_file_probe w), (hist_file_probe w);
    destruct (user_ns w) as [ns|]; run_monad;
    try destruct (ns !! VSC_KEY) as [[| |p]|]; run_monad;
    destruct (parent_cmdline w) as [[cmd|]|]; run_monad;
    try destruct (List.find is_ipynb cmd); reflexivity.
Qed.

(** Label resolution is a pure read: it returns, leaves the session alone
    and prints nothing. *)
Lemma _get_notebook_name_returns (w : world) (s : session) :
  exists label, _get_notebook_name w s = (Normal label, s, []).
Proof. rewrite _get_notebook_name_run. eauto. Qed.

(** The dispatcher computed: it leaves the session alone, it ends as the
    lookup ends, and its trace is the call itself followed by the launch
    or by the two console lines of a degraded path, or by nothing when the
    lookup raises. *)
Lemma _show_alert_run (w : world) (success : bool) (message : str)
    (notebook_name : option str) (s : session) :
  _show_alert w success message notebook_name s =
  (dispatch_result w, s,
   EvNotify success message notebook_name ::
   launch_events w success message notebook_name s).
Proof.
  unfold _show_alert, launch_events, dispatch_result, label_for, status_token.
  destruct (_get_alert_script_path w) as [found|e]; [|reflexivity].
  cbv [bind emit of_probe ret].
  destruct (located found) as [script|]; [|reflexivity].
  destruct notebook_name as [n|].
  - run_monad. destruct (Popen w _) as [[]|e]; reflexivity.
  - destruct (_get_notebook_name_returns w s) as [label E].
    rewrite E. cbv [result_of fst].
    destruct label as [[|c n]|]; run_monad;
      destruct (Popen w _) as [[]|e]; reflexivity.
Qed.

Lemma launch_events_dispatches (b : bool) (w : world) (success : bool)
    (message : str) (notebook_name : option str) (s : session) :
  dispatches b (launch_events w success message notebook_name s) = 0.
Proof.
  unfold launch_events, dispatches.
  destruct (_get_alert_script_path w) as [found|]; [|reflexivity].
  destruct (located _); [destruct (Popen w _)|]; reflexivity.
Qed.

Lemma launch_events_notifications (w : world) (success : bool)
    (message : str) (notebook_name : option str) (s : session) :
  notifications (launch_events w success message notebook_name s) = [].
Proof.
  unfold launch_events, notifications.
  destruct (_get_alert_script_path w) as [found|]; [|reflexivity].
  destruct (located _); [destruct (Popen w _)|]; reflexivity.
Qed.

(** The label depends on the session through the shell only. *)
Lemma launch_events_flags (w : world) (success : bool) (message : str)
    (notebook_name : option str) (s : session) (b1 b2 : bool) :
  launch_events w success message notebook_name (with_flags b1 b2 s) =
  launch_events w success message notebook_name s.
Proof.
  unfold launch_events, label_for.
  rewrite !_get_notebook_name_run. unfold strategy_result.
  rewrite !probe_vsc_variable_run, !probe_parent_cmdline_run. reflexivity.
Qed.

Lemma dispatches_app (b : bool) (t1 t2 : trace) :
  dispatches b (t1 ++ t2) = dispatches b t1 + dispatches b t2.
Proof. unfold dispatches. rewrite List.filter_app, length_app. reflexivity. Qed.

(** [done] and [error]: the dispatch, then the confirmation line unless
    the dispatch raised. *)
Lemma done_run (w : world) (message : str) (s : session) :
  done w message s =
  (dispatch_result w, s,
   EvNotify true message None :: launch_events w true message None s
   ++ match dispatch_result w with
      | Normal _ => [EvPrint (CHECK_MARK :: lit " " ++ message)]
      | Raised _ => []
      end).
Proof.
  unfold done, bind. rewrite _show_alert_run.
  destruct (dispatch_result w) as [[]|e]; [reflexivity|].
  rewrite app_nil_r. reflexivity.
Qed.

Lemma error_run (w : world) (message : str) (s : session) :
  error w message s =
  (dispatch_result w, s,
   EvNotify false message None :: launch_events w false message None s
   ++ match dispatch_result w with
      | Normal _ => [EvPrint (BALLOT_X :: lit " " ++ message)]
      | Raised _ => []
      end).
Proof.
  unfold error, bind. rewrite _show_alert_run.
  destruct (dispatch_result w) as [[]|e]; [reflexivity|].
  rewrite app_nil_r. reflexivity.
Qed.

Lemma extract_error_msg_run (w : world) (s : session) :
  extract_error_msg w s = (Normal (error_msg_of w), s, []).
Proof.
  unfold extract_error_msg, error_msg_of, truth.
  destruct (exc_info w) as [[c|] [v|]]; run_monad; try reflexivity.
  - destruct (class_truth c) as [[]|]; run_monad; try reflexivity.
    destruct (value_truth v) as [[]|]; run_monad; try reflexivity.
    destruct (str_of_value v); reflexivity.
  - destruct (class_truth c) as [[]|]; reflexivity.
Qed.

(** The wrapper after a routine that returned: it ends as its dispatch
    ends when it dispatches, and normally otherwise. *)
Lemma custom_showtraceback_run (w : world) (orig : call_args -> M unit)
    (args : call_args) (s s1 : session) (t1 : trace) :
  orig args s = (Normal tt, s1, t1) ->
  custom_showtraceback w orig args s =
  (if _error_occurred s1 then Normal tt else dispatch_result w,
   with_flags (_error_handler_installed s1) true s1,
   t1 ++ hook_events w s1).
Proof.
  intros E. unfold custom_showtraceback, hook_events.
  unfold bind at 1. rewrite E.
  unfold bind at 1, get.
  destruct s1 as [i o ip]; destruct o; cbn [_error_occurred negb].
  - reflexivity.
  - unfold bind at 1, set_error_occurred, bind at 1, get, put.
    unfold bind. rewrite extract_error_msg_run, _show_alert_run.
    cbn [app _error_handler_installed _error_occurred ipython].
    rewrite <- (launch_events_flags w false (error_msg_of w) None
                  {| _error_handler_installed := i; _error_occurred := false;
                     ipython := ip |} i true).
    reflexivity.
Qed.

(** The wrapper after a routine that raised: the exception passes through
    and the hook does nothing. *)
Lemma custom_showtraceback_raised (w : world) (orig : call_args -> M unit)
    (args : call_args) (s s1 : session) (t1 : trace) (e : exn) :
  orig args s = (Raised e, s1, t1) ->
  custom_showtraceback w orig args s = (Raised e, s1, t1).
Proof.
  intros E. unfold custom_showtraceback. unfold bind at 1. rewrite E.
  reflexivity.
Qed.

Lemma launch_events_no_original (w : world) (success : bool) (message : str)
    (notebook_name : option str) (s : session) :
  List.filter is_original (launch_events w success message notebook_name s) = [].
Proof.
  unfold launch_events.
  destruct (_get_alert_script_path w) as [found|]; [|reflexivity].
  destruct (located _); [destruct (Popen w _)|]; reflexivity.
Qed.

Lemma hook_events_no_original (w : world) (s : session) :
  List.filter is_original (hook_events w s) = [].
Proof.
  unfold hook_events. destruct (_error_occurred s); [reflexivity|].
  cbn [List.filter is_original]. apply launch_events_no_original.
Qed.

Lemma hook_events_dispatches (w : world) (s : session) :
  dispatches false (hook_events w s) = (if _error_occurred s then 0 else 1)
  /\ dispatches true (hook_events w s) = 0.
Proof.
  unfold hook_events. destruct (_error_occurred s); [split; reflexivity|].
  change (EvNotify false (error_msg_of w) None :: ?t)
    with ([EvNotify false (error_msg_of w) None] ++ t).
  rewrite !dispatches_app, !launch_events_dispatches. split; reflexivity.
Qed.

(** Calling the shell's routine: the host's own routine runs first and
    once, and in all its layers the hook dispatches one error alert when
    the flag was down and none when it was up; the call ends as that one
    dispatch ends. *)
Lemma call_routine_run (w : world) (r : routine) (args : call_args) (s : session) :
  exists t,
    call_routine w r args s =
      (routine_result w r s, after_routine r s, EvOriginal args :: t)
    /\ List.filter is_original t = []
    /\ dispatches false t = (if _error_occurred s then 0 else Nat.min 1 (layers r))
    /\ dispatches true t = 0.
Proof.
  induction r as [|r IH].
  - exists []. unfold routine_result. cbn. destruct (_error_occurred s); auto.
  - destruct IH as (t & E & Ho & Hf & Ht).
    exists (t ++ hook_events w (after_routine r s)).
    destruct (hook_events_dispatches w (after_routine r s)) as [Hhf Hht].
    rewrite List.filter_app, Ho, hook_events_no_original.
    rewrite !dispatches_app, Hf, Ht, Hhf, Hht.
    split.
    { cbn [call_routine]. destruct (routine_result w r s) as [[]|e] eqn:R.
      - rewrite (custom_showtraceback_run w _ args s _ _ E).
        unfold routine_result in *.
        destruct r; destruct s as [i [] ip]; cbn in *; rewrite ?R; reflexivity.
      - rewrite (custom_showtraceback_raised w _ args s _ _ e E).
        unfold routine_result, hook_events in *.
        destruct r; destruct s as [i [] ip]; cbn in *; try discriminate.
        rewrite R, app_nil_r. reflexivity. }
    repeat split.
    destruct r; destruct s as [i [] ip]; reflexivity.
Qed.

Lemma _setup_auto_error_detection_run (s : session) :
  _setup_auto_error_detection s =
  if _error_handler_installed s then (Normal tt, s, [])
  else match ipython s with
       | Instance r =>
           (Normal tt,
            {| _error_handler_installed := true;
               _error_occurred := _error_occurred s;
               ipython := Instance (Custom r) |},
            [EvPrint ENABLED_LINE])
       | _ => (Normal tt, s, [])
       end.
Proof.
  unfold _setup_auto_error_detection.
  destruct s as [[] o [| |r]]; reflexivity.
Qed.

Lemma enable_alerts_run (s : session) :
  enable_alerts s =
  (Normal tt, session_of (_setup_auto_error_detection s),
   trace_of (_setup_auto_error_detection s) ++ map EvPrint BANNER).
Proof.
  unfold enable_alerts. unfold bind at 1.
  rewrite _setup_auto_error_detection_run.
  destruct (_error_handler_installed s); [reflexivity|].
  destruct (ipython s); reflexivity.
Qed.

Lemma uncaught_exception_run (w : world) (args : call_args) (s : session) :
  uncaught_exception w args s =
  match ipython s with
  | Instance r => call_routine w r args s
  | _ => (Normal tt, s, [])
  end.
Proof.
  unfold uncaught_exception, bind, get.
  destruct (ipython s).
  - reflexivity.
  - reflexivity.
  - destruct (call_routine w showtraceback args s) as [[o s'] t]. reflexivity.
Qed.

(** How each call ends: the install never raises, and the others end as
    their one dispatch ends. *)
Lemma run_command_result (c : command) (s : session) :
  result_of (run_command c s) =
  match c with
  | CmdImport | CmdEnable => Normal tt
  | CmdDone w _ | CmdError w _ => dispatch_result w
  | CmdException w _ =>
      match ipython s with
      | Instance r => routine_result w r s
      | _ => Normal tt
      end
  end.
Proof.
  destruct c as [| |w m|w m|w a]; cbn [run_command].
  - unfold import_module. rewrite _setup_auto_error_detection_run.
    destruct (_error_handler_installed s); [|destruct (ipython s)]; reflexivity.
  - rewrite enable_alerts_run. reflexivity.
  - rewrite done_run. reflexivity.
  - rewrite error_run. reflexivity.
  - rewrite uncaught_exception_run. destruct (ipython s) as [| |r]; try reflexivity.
    destruct (call_routine_run w r a s) as (t & E & _). rewrite E. reflexivity.
Qed.

(** A call whose lookup returns does not raise into the notebook. *)
Lemma run_command_returns (c : command) (s : session) :
  calm c -> result_of (run_command c s) = Normal tt.
Proof.
  intros H. rewrite run_command_result.
  destruct c as [| |w m|w m|w a]; cbn [calm] in H; auto.
  destruct (ipython s) as [| |r]; auto.
  unfold routine_result. rewrite H.
  destruct (_error_occurred s); destruct r; reflexivity.
Qed.

(** Whatever a call raises is what its lookup raised. *)
Lemma run_command_raised (c : command) (s : session) (e : exn) :
  result_of (run_command c s) = Raised e ->
  exists w, dispatch_result w = Raised e
            /\ match c with
               | CmdDone w' _ | CmdError w' _ | CmdException w' _ => w' = w
               | CmdImport | CmdEnable => False
               end.
Proof.
  rewrite run_command_result.
  destruct c as [| |w m|w m|w a]; try discriminate; eauto.
  destruct (ipython s) as [| |r]; try discriminate.
  unfold routine_result.
  destruct (_error_occurred s); [discriminate|].
  destruct r; [discriminate|]. eauto.
Qed.

Lemma run_command_consistent (c : command) (s : session) :
  consistent s -> consistent (session_of (run_command c s)).
Proof.
  intros H. destruct c as [| |w m|w m|w a]; cbn [run_command].
  - unfold import_module. rewrite _setup_auto_error_detection_run.
    destruct s as [[] o [| |r]]; cbn in *; congruence.
  - rewrite enable_alerts_run, _setup_auto_error_detection_run.
    destruct s as [[] o [| |r]]; cbn in *; congruence.
  - rewrite done_run. exact H.
  - rewrite error_run. exact H.
  - rewrite uncaught_exception_run.
    destruct (ipython s) as [| |r] eqn:Ei; [exact H..|].
    destruct (call_routine_run w r a s) as (t & E & _). rewrite E.
    unfold consistent in *. rewrite Ei in H.
    destruct r; destruct s as [i o ip]; cbn in *; subst; assumption.
Qed.

Lemma reachable_consistent (s : session) : reachable s -> consistent s.
Proof.
  induction 1 as [ip Hip|s c _ IH].
  - unfold import_module. rewrite _setup_auto_error_detection_run.
    destruct ip as [| |r]; cbn in *; congruence.
  - apply run_command_consistent, IH.
Qed.

(** Calls made in sequence: the first that raises ends the sequence. *)
Lemma run_commands_cons (c : command) (rest : list command) (s : session) :
  run_commands (c :: rest) s =
  match result_of (run_command c s) with
  | Normal _ =>
      (result_of (run_commands rest (session_of (run_command c s))),
       session_of (run_commands rest (session_of (run_command c s))),
       trace_of (run_command c s)
       ++ trace_of (run_commands rest (session_of (run_command c s))))
  | Raised e => (Raised e, session_of (run_command c s), trace_of (run_command c s))
  end.
Proof.
  cbn [run_commands]. unfold bind.
  destruct (run_command c s) as [[[[]|e] s1] t1];
    cbn [result_of session_of trace_of fst snd]; [|reflexivity].
  destruct (run_commands rest s1) as [[o2 s2] t2]. reflexivity.
Qed.

(** A sequence of calls whose lookups return runs to its end, through the
    sessions its calls leave one after the other. *)
Lemma run_commands_returns (cs : list command) (s : session) :
  Forall calm cs ->
  result_of (run_commands cs s) = Normal tt
  /\ session_of (run_commands cs s) = session_after cs s.
Proof.
  intros H. revert s. induction H as [|c rest Hc _ IH]; intros s.
  - split; reflexivity.
  - rewrite run_commands_cons, (run_command_returns c s Hc).
    cbn [result_of session_of fst snd session_after]. apply IH.
Qed.

(** What a sequence of calls raises is what the lookup of one of its
    calls raised. *)
Lemma run_commands_raised (cs : list command) (s : session) (e : exn) :
  result_of (run_commands cs s) = Raised e ->
  exists c w, In c cs /\ dispatch_result w = Raised e
              /\ match c with
                 | CmdDone w' _ | CmdError w' _ | CmdException w' _ => w' = w
                 | CmdImport | CmdEnable => False
                 end.
Proof.
  revert s. induction cs as [|c rest IH]; intros s; [discriminate|].
  rewrite run_commands_cons.
  destruct (result_of (run_command c s)) as [[]|e'] eqn:R;
    cbn [result_of fst].
  - intros H. destruct (IH _ H) as (c' & w & Hin & Hd).
    exists c', w. split; [right; exact Hin|exact Hd].
  - intros H. inversion H; subst e'.
    destruct (run_command_raised c s e R) as (w & Hd).
    exists c, w. split; [left; reflexivity|exact Hd].
Qed.

Lemma consistent_hooked (s : session) :
  consistent s -> _error_handler_installed s = true -> hooked s.
Proof.
  unfold consistent, hooked. intros H I. rewrite I in H.
  destruct (ipython s); [discriminate..|]. subst. auto.
Qed.

(** With the hook in place only an exception changes the session, and it
    raises the flag; the hook dispatches when the flag was down. *)
Lemma run_command_hooked (c : command) (s : session) :
  hooked s ->
  session_of (run_command c s) =
    (if is_exception c then with_flags true true s else s)
  /\ (is_exception c = true ->
      dispatches false (trace_of (run_command c s)) =
        if _error_occurred s then 0 else 1).
Proof.
  intros [Hi Hf]. destruct c as [| |w m|w m|w a]; cbn [run_command is_exception].
  - unfold import_module. rewrite _setup_auto_error_detection_run, Hf.
    split; [reflexivity|discriminate].
  - rewrite enable_alerts_run, _setup_auto_error_detection_run, Hf.
    split; [reflexivity|discriminate].
  - rewrite done_run. split; [reflexivity|discriminate].
  - rewrite error_run. split; [reflexivity|discriminate].
  - rewrite uncaught_exception_run, Hi.
    destruct (call_routine_run w (Custom Original) a s) as (t & E & _ & Hd & _).
    rewrite E. cbn [session_of trace_of fst snd after_routine]. rewrite Hf.
    split; [reflexivity|]. intros _.
    change (EvOriginal a :: t) with ([EvOriginal a] ++ t).
    rewrite dispatches_app, Hd. destruct (_error_occurred s); reflexivity.
Qed.

Lemma hooked_step (c : command) (s : session) :
  hooked s -> hooked (session_of (run_command c s)).
Proof.
  intros H. destruct (run_command_hooked c s H) as [E _]. rewrite E.
  destruct (is_exception c); [|exact H].
  destruct H as [Hi Hf]. split; [exact Hi|reflexivity].
Qed.

Lemma hook_alerts_hooked (cs : list command) (s : session) :
  hooked s ->
  hook_alerts cs s =
    if _error_occurred s then 0
    else if existsb is_exception cs then 1 else 0.
Proof.
  revert s. induction cs as [|c rest IH]; intros s H.
  - cbn. destruct (_error_occurred s); reflexivity.
  - cbn [hook_alerts existsb].
    rewrite (IH _ (hooked_step c s H)).
    destruct (run_command_hooked c s H) as [E D]. rewrite E.
    destruct c as [| |w m|w m|w a]; cbn [is_exception orb] in *;
      try (destruct (_error_occurred s); reflexivity).
    rewrite (D eq_refl). cbn [with_flags _error_occurred].
    destruct (_error_occurred s); reflexivity.
Qed.

Lemma flag_after_commands (cs : list command) (s : session) :
  hooked s ->
  _error_occurred (session_after cs s) =
    _error_occurred s || existsb is_exception cs.
Proof.
  revert s. induction cs as [|c rest IH]; intros s H.
  - cbn. rewrite orb_false_r. reflexivity.
  - cbn [session_after existsb].
    rewrite (IH _ (hooked_step c s H)).
    destruct (run_command_hooked c s H) as [E _]. rewrite E.
    destruct (is_exception c); cbn [with_flags _error_occurred orb].
    + rewrite orb_true_r. reflexivity.
    + reflexivity.
Qed.

(** C1: in a session with the hook installed and no error alerted yet, any
    run of calls with at least one uncaught exception makes the hook
    dispatch exactly one error alert: the invocation that finds
    [_error_occurred] false dispatches and raises the flag, and an
    invocation that finds it raised dispatches nothing.  This holds
    whether or not a dispatch then raises over a failing lookup; when
    every lookup returns the whole run returns. *)
Theorem C1_one_error_alert_per_session (s : session) (cs : list command) :
  reachable s ->
  _error_handler_installed s = true ->
  _error_occurred s = false ->
  existsb is_exception cs = true ->
  hook_alerts cs s = 1
  /\ (Forall calm cs ->
      result_of (run_commands cs s) = Normal tt
      /\ session_of (run_commands cs s) = session_after cs s)
  /\ _error_occurred (session_after cs s) = true
  /\ (forall w args,
        dispatches false (trace_of (uncaught_exception w args s)) = 1
        /\ dispatches true (trace_of (uncaught_exception w args s)) = 0
        /\ _error_occurred (session_of (uncaught_exception w args s)) = true)
  /\ (forall w args s',
        _error_occurred s' = true ->
        dispatches false (trace_of (uncaught_exception w args s')) = 0
        /\ _error_occurred (session_of (uncaught_exception w args s')) = true).
Proof.
  intros R I O N.
  pose proof (consistent_hooked s (reachable_consistent s R) I) as H.
  split; [rewrite (hook_alerts_hooked cs s H), O, N; reflexivity|].
  split; [apply run_commands_returns|].
  split; [rewrite (flag_after_commands cs s H), O, N; reflexivity|].
  split.
  - intros w args. rewrite uncaught_exception_run. destruct H as [Hi _]. rewrite Hi.
    destruct (call_routine_run w (Custom Original) args s) as (t & E & _ & Hf & Ht).
    rewrite E. cbn [trace_of session_of fst snd after_routine].
    change (EvOriginal args :: t) with ([EvOriginal args] ++ t).
    rewrite !dispatches_app, Hf, Ht, O. repeat split.
  - intros w args s' O'. rewrite uncaught_exception_run.
    destruct (ipython s') as [| |r]; cbn [trace_of session_of fst snd]; auto.
    destruct (call_routine_run w r args s') as (t & E & _ & Hf & _).
    rewrite E. cbn [trace_of session_of fst snd].
    change (EvOriginal args :: t) with ([EvOriginal args] ++ t).
    rewrite dispatches_app, Hf, O'. split; [reflexivity|].
    destruct r; [exact O'|reflexivity].
Qed.




Lemma console_line_contains (success : bool) (message : str) :
  contains (console_line success message) message.
Proof.
  unfold contains, console_line. destruct message as [|c m].
  - exists [], []. reflexivity.
  - cbn [truthy].
    exists (CHECK_MARK :: lit " " ++ (if success then lit "SUCCESS" else lit "ERROR")
            ++ lit ": "), [].
    rewrite app_nil_r. cbn [app]. rewrite <- !app_assoc. reflexivity.
Qed.

(** C3: the dispatcher does raise to its caller when the lookup does.
    [_get_alert_script_path] runs before the only [try] of [_show_alert],
    so what [Path.cwd()] raises passes through: from a removed working
    directory, with no script beside the module, the dispatch raises
    [FileNotFoundError] and prints nothing, for every status, message,
    label and session. *)
Theorem C3_lookup_failure_reaches_caller (success : bool) (message : str)
    (notebook_name : option str) (s : session) :
  _get_alert_script_path removed_cwd_world = Raises FileNotFoundError
  /\ _show_alert removed_cwd_world success message notebook_name s =
     (Raised FileNotFoundError, s, [EvNotify success message notebook_name]).
Proof.
  split; [reflexivity|]. rewrite _show_alert_run. reflexivity.
Qed.

Lemma notifications_app (t1 t2 : trace) :
  notifications (t1 ++ t2) = notifications t1 ++ notifications t2.
Proof. apply List.filter_app. Qed.

Lemma times_run (n : nat) (m : M unit) (s : session) (t : trace) :
  m s = (Normal tt, s, t) ->
  times n m s = (Normal tt, s, concat (replicate n t)).
Proof.
  intros E. induction n as [|n IH]; [reflexivity|].
  cbn [times replicate concat]. unfold bind. rewrite E, IH. reflexivity.
Qed.

Lemma dispatches_concat_replicate (b : bool) (n : nat) (t : trace) :
  dispatches b (concat (replicate n t)) = n * dispatches b t.
Proof.
  induction n as [|n IH]; [reflexivity|].
  cbn [replicate concat]. rewrite dispatches_app, IH. lia.
Qed.

(** C4: [done] and [error] raise, and print no confirmation, when the
    lookup raises.  Neither has a [try] of its own, so from a removed
    working directory, with no script beside the module, each makes its
    one dispatcher call, raises [FileNotFoundError] and never reaches its
    [print], for every message and session. *)
Theorem C4_manual_call_raises_before_confirmation (m : str) (s : session) :
  done removed_cwd_world m s =
    (Raised FileNotFoundError, s, [EvNotify true m None])
  /\ error removed_cwd_world m s =
     (Raised FileNotFoundError, s, [EvNotify false m None]).
Proof.
  rewrite done_run, error_run. split; reflexivity.
Qed.

(** C5: label resolution tries the injected [__vsc_ipynb_file__] variable
    before the parent's command line and returns the first result
    present; a strategy that raises counts as absent and the next one is
    tried; with no result, or no shell, the label is [None].  The call
    never raises, prints nothing and leaves the session alone. *)
Theorem C5_label_resolution_order (w : world) (s : session) :
  _get_notebook_name w s =
    (Normal (match ipython s with
             | Instance _ =>
                 first_successful [strategy_result (probe_vsc_variable w) s;
                                   strategy_result (probe_parent_cmdline w) s]
             | _ => None
             end), s, [])
  /\ strategy_result (probe_vsc_variable w) s =
       match user_ns w with
       | Returns ns =>
           match ns !! lit "__vsc_ipynb_file__" with
           | Some (PyStr nb_path) => Some (stem nb_path)
           | _ => None
           end
       | Raises _ => None
       end
  /\ strategy_result (probe_parent_cmdline w) s =
       match parent_cmdline w with
       | Returns (Some cmdline) =>
           stem <$> List.find (fun arg => endswith arg (lit ".ipynb")) cmdline
       | _ => None
       end.
Proof.
  split; [apply _get_notebook_name_run|].
  unfold strategy_result.
  rewrite probe_vsc_variable_run, probe_parent_cmdline_run.
  cbn [result_of fst]. split.
  - destruct (user_ns w) as [ns|]; [|reflexivity].
    change (lit "__vsc_ipynb_file__") with VSC_KEY.
    destruct (ns !! VSC_KEY) as [[| |p]|]; reflexivity.
  - destruct (parent_cmdline w) as [[cmd|]|]; try reflexivity.
    change (fun arg : str => endswith arg (lit ".ipynb")) with is_ipynb.
    destruct (List.find is_ipynb cmd); reflexivity.
Qed.

(** C6: the wrapper chains to the routine captured at install time
    first.  Installing over a routine [r] stores the wrapper of [r]; the
    trace of an invocation of the wrapper, with any arguments and in any
    session state, is the trace of [r] on the same arguments followed by
    what the hook adds, decided on [_error_occurred] as [r] left it.  The
    host's own routine runs first and exactly once; when the flag is
    already raised the wrapper over it does nothing else.  The invocation
    returns unless the lookup of its one dispatch raises. *)
Theorem C6_original_runs_first (w : world) (r : routine) (args : call_args)
    (s : session) :
  let inner := call_routine w r args s in
  let res := call_routine w (Custom r) args s in
  result_of res = routine_result w (Custom r) s
  /\ result_of inner = routine_result w r s
  /\ (dispatch_result w = Normal tt ->
      result_of res = Normal tt /\ result_of inner = Normal tt)
  /\ trace_of res = trace_of inner ++ hook_events w (session_of inner)
  /\ (exists t, trace_of res = EvOriginal args :: t
                /\ List.filter is_original t = [])
  /\ (if _error_occurred s
      then call_routine w (Custom Original) args s = (Normal tt, s, [EvOriginal args])
      else exists rest,
          trace_of (call_routine w (Custom Original) args s) =
          EvOriginal args :: EvNotify false (error_msg_of w) None :: rest)
  /\ (forall occurred,
        ipython (session_of (_setup_auto_error_detection
                   {| _error_handler_installed := false;
                      _error_occurred := occurred;
                      ipython := Instance r |})) = Instance (Custom r)).
Proof.
  intros inner res. subst inner res.
  destruct (call_routine_run w r args s) as (t & E & Ho & _).
  destruct (call_routine_run w (Custom r) args s) as (t' & E' & Ho' & _).
  split; [rewrite E'; reflexivity|].
  split; [rewrite E; reflexivity|].
  split.
  { intros D. rewrite E, E'. unfold routine_result. rewrite D.
    cbn [result_of fst]. destruct (_error_occurred s); destruct r; auto. }
  split.
  { cbn [call_routine]. rewrite E. cbn [trace_of session_of fst snd].
    destruct (routine_result w r s) as [[]|e] eqn:R.
    - rewrite (custom_showtraceback_run w _ args s _ _ E). reflexivity.
    - rewrite (custom_showtraceback_raised w _ args s _ _ e E).
      cbn [trace_of snd]. unfold routine_result, hook_events in *.
      destruct r; destruct s as [i [] ip]; cbn in *; try discriminate.
      rewrite app_nil_r. reflexivity. }
  split; [exists t'; rewrite E'; auto|].
  split.
  - cbn [call_routine].
    rewrite (custom_showtraceback_run w _ args s s [EvOriginal args] eq_refl).
    unfold hook_events.
    destruct s as [i [] ip]; cbn [_error_occurred]; [reflexivity|].
    eexists. reflexivity.
  - intros occurred. rewrite _setup_auto_error_detection_run. reflexivity.
Qed.

Lemma length_lit_sep : length (lit ": ") = 2.
Proof. reflexivity. Qed.

(** C7, amended: the message of the automatic alert.  When the hook
    fires, on the first exception of a hooked session, and
    [sys.exc_info()] gives a class and a value that are both truthy, the
    dispatched message is the exception's class name, a colon and a space,
    and the exception's text cut to its first 100 characters at most.  In
    every other case it is the generic message: no type or no value, a
    falsy class or value, or a failure to ask for the truth value or the
    text. *)
Theorem C7_automatic_alert_message (w : world) (args : call_args) (s : session) :
  ipython s = Instance (Custom Original) ->
  _error_occurred s = false ->
  exists error_msg rest,
    trace_of (uncaught_exception w args s) =
      EvOriginal args :: EvNotify false error_msg None :: rest
    /\ notifications (trace_of (uncaught_exception w args s)) =
         [EvNotify false error_msg None]
    /\ match exc_info w with
       | (Some exc_type, Some exc_value) =>
           match class_truth exc_type, value_truth exc_value,
                 str_of_value exc_value with
           | Returns true, Returns true, Returns text =>
               exists short,
                 error_msg = class_name exc_type ++ lit ": " ++ short
                 /\ short `prefix_of` text
                 /\ length short = Nat.min 100 (length text)
                 /\ length short <= 100
                 /\ length error_msg = length (class_name exc_type) + 2 + length short
           | _, _, _ => error_msg = lit "An error occurred during execution"
           end
       | _ => error_msg = lit "An error occurred during execution"
       end.
Proof.
  intros Hi Ho.
  exists (error_msg_of w), (launch_events w false (error_msg_of w) None s).
  rewrite uncaught_exception_run, Hi. cbn [call_routine].
  rewrite (custom_showtraceback_run w _ args s s [EvOriginal args] eq_refl).
  unfold hook_events. rewrite Ho. cbn [trace_of snd app].
  split; [reflexivity|]. split.
  { change (EvOriginal args :: EvNotify false (error_msg_of w) None :: ?t)
      with ([EvOriginal args; EvNotify false (error_msg_of w) None] ++ t).
    rewrite notifications_app, launch_events_notifications. reflexivity. }
  unfold error_msg_of.
  destruct (exc_info w) as [[c|] [v|]]; try reflexivity.
  destruct (class_truth c) as [[]|]; try reflexivity.
  destruct (value_truth v) as [[]|]; try reflexivity.
  destruct (str_of_value v) as [text|]; [|reflexivity].
  exists (take 100 text). split; [reflexivity|].
  split; [apply prefix_take|].
  rewrite !length_app, length_lit_sep, length_take. repeat split; lia.
Qed.

(** C8: what the notifier is launched with.  Every launch in the trace of
    a dispatch has the argument vector interpreter, script, status token,
    message, label, so the script's positional arguments are the token
    ("success" for success, "error" otherwise), the message and the label
    as given; the label is the supplied one, else the probed notebook name,
    else the empty string.  When the script is found and the spawn
    succeeds there is exactly that one launch. *)
Theorem C8_notifier_arguments (w : world) (success : bool) (message : str)
    (notebook_name : option str) (s : session) :
  let t := trace_of (_show_alert w success message notebook_name s) in
  let label :=
    match notebook_name with
    | Some n => n
    | None => default [] (match ipython s with
                          | Instance _ =>
                              first_successful
                                [strategy_result (probe_vsc_variable w) s;
                                 strategy_result (probe_parent_cmdline w) s]
                          | _ => None
                          end)
    end in
  (forall argv,
     In (EvPopen argv) t ->
     drop 2 argv = [if success then lit "success" else lit "error"; message; label]
     /\ argv !! 0 = Some (sys_executable w)
     /\ _get_alert_script_path w = Returns (argv !! 1)
     /\ Popen w argv = Returns tt)
  /\ (forall found alert_script,
        _get_alert_script_path w = Returns found ->
        located found = Some alert_script ->
        Popen w [sys_executable w; alert_script;
                 if success then lit "success" else lit "error";
                 message; label] = Returns tt ->
        t = [EvNotify success message notebook_name;
             EvPopen [sys_executable w; alert_script;
                      if success then lit "success" else lit "error";
                      message; label]]).
Proof.
  intros t label. subst t.
  assert (L : label_for w notebook_name s = label).
  { unfold label_for, label. destruct notebook_name as [n|]; [reflexivity|].
    rewrite _get_notebook_name_run. cbn [result_of fst].
    destruct (match ipython s with Instance _ => _ | _ => None end); reflexivity. }
  rewrite _show_alert_run. cbn [trace_of snd].
  unfold launch_events, status_token. rewrite L. cbv zeta.
  unfold located.
  destruct (_get_alert_script_path w) as [[script|]|e] eqn:P.
  2:{ split; [|intros found script' H H'; inversion H; subst; discriminate].
      intros argv [H|[H|[H|[]]]]; discriminate. }
  2:{ split; [|intros found script' H; discriminate].
      intros argv [H|[]]; discriminate. }
  destruct script as [|c script]; cbn [truthy].
  { split; [|intros found script' H H'; inversion H; subst; discriminate].
    intros argv [H|[H|[H|[]]]]; discriminate. }
  split.
  - destruct (Popen w _) as [[]|e] eqn:Q.
    + intros argv [H|[H|[]]]; [discriminate|]. inversion H; subst argv.
      repeat split; auto.
    + intros argv [H|[H|[H|[]]]]; discriminate.
  - intros found script' H H' Q. inversion H; subst found.
    cbn [truthy] in H'. inversion H'; subst script'. rewrite Q. reflexivity.
Qed.

Lemma no_shell_step (c : command) (s : session) :
  consistent s ->
  (ipython s = NotImportable \/ ipython s = NoInstance) ->
  session_of (run_command c s) = s
  /\ (is_exception c = true -> trace_of (run_command c s) = []).
Proof.
  intros C Hno. unfold consistent in C.
  destruct c as [| |w m|w m|w a]; cbn [run_command is_exception].
  - unfold import_module. rewrite _setup_auto_error_detection_run.
    split; [|discriminate].
    destruct Hno as [E|E]; rewrite E in *; rewrite C; reflexivity.
  - rewrite enable_alerts_run, _setup_auto_error_detection_run.
    split; [|discriminate].
    destruct Hno as [E|E]; rewrite E in *; rewrite C; reflexivity.
  - rewrite done_run. split; [reflexivity|discriminate].
  - rewrite error_run. split; [reflexivity|discriminate].
  - rewrite uncaught_exception_run.
    destruct Hno as [E|E]; rewrite E; split; reflexivity.
Qed.

Lemma hook_alerts_no_shell (cs : list command) (s : session) :
  consistent s ->
  (ipython s = NotImportable \/ ipython s = NoInstance) ->
  hook_alerts cs s = 0.
Proof.
  intros C Hno. induction cs as [|c rest IH]; [reflexivity|].
  cbn [hook_alerts]. destruct (no_shell_step c s C Hno) as [E T].
  rewrite E, IH.
  destruct c; try reflexivity. rewrite (T eq_refl). reflexivity.
Qed.

(** C9: without an interactive shell ([get_ipython()] is [None], or
    IPython cannot be imported) [enable_alerts()] raises nothing and
    installs nothing: it returns, prints its banner, and leaves the
    session as it was, with [_error_handler_installed] false and no
    routine wrapped.  Every later exception reaches no code of the module,
    and along any later calls the hook dispatches no alert. *)
Theorem C9_no_shell_no_hook (s : session) :
  reachable s ->
  (ipython s = NotImportable \/ ipython s = NoInstance) ->
  let res := enable_alerts s in
  result_of res = Normal tt
  /\ session_of res = s
  /\ trace_of res = map EvPrint BANNER
  /\ _error_handler_installed (session_of res) = false
  /\ wrapper_layers (session_of res) = 0
  /\ (forall w args,
        uncaught_exception w args (session_of res) = (Normal tt, session_of res, []))
  /\ (forall cs, hook_alerts cs (session_of res) = 0).
Proof.
  intros R Hno res. subst res.
  pose proof (reachable_consistent s R) as C.
  assert (I : _error_handler_installed s = false).
  { unfold consistent in C. destruct Hno as [H|H]; rewrite H in C; exact C. }
  assert (E : enable_alerts s = (Normal tt, s, map EvPrint BANNER)).
  { rewrite enable_alerts_run, _setup_auto_error_detection_run, I.
    destruct Hno as [H|H]; rewrite H; reflexivity. }
  rewrite E. cbn [result_of session_of trace_of fst snd].
  split; [reflexivity|]. split; [reflexivity|]. split; [reflexivity|].
  split; [exact I|]. split.
  { unfold wrapper_layers. destruct Hno as [H|H]; rewrite H; reflexivity. }
  split.
  - intros w args. rewrite uncaught_exception_run.
    destruct Hno as [H|H]; rewrite H; reflexivity.
  - intros cs. apply hook_alerts_no_shell; assumption.
Qed.

(** ** Further properties of the dispatcher *)

(** X1: the notifier lookup is first match wins over the module's
    directory, the working directory and the home directory, in that order:
    a path it returns exists and every place before it could be named and
    holds no script; it returns nothing only when none of the three
    exists; and what it raises was raised at the first place that could
    not be named or asked about, every place before holding no script. *)
Theorem X1_script_search_first_match (w : world) :
  match _get_alert_script_path w with
  | Returns (Some p) =>
      path_exists w p = Returns true
      /\ exists before after,
           candidates w = before ++ Returns p :: after
           /\ Forall (holds_nothing w) before
  | Returns None => Forall (holds_nothing w) (candidates w)
  | Raises e =>
      exists before failing after,
        candidates w = before ++ failing :: after
        /\ Forall (holds_nothing w) before
        /\ (failing = Raises e
            \/ exists q, failing = Returns q /\ path_exists w q = Raises e)
  end.
Proof.
  unfold _get_alert_script_path, candidates.
  destruct (path_exists w (candidate_script_dir w)) as [[]|e1] eqn:E1;
    cbn [probe_bind].
  { split; [exact E1|]. exists [], [candidate_cwd w; candidate_home w].
    split; [reflexivity|constructor]. }
  2:{ exists [], (Returns (candidate_script_dir w)),
             [candidate_cwd w; candidate_home w].
      split; [reflexivity|]. split; [constructor|]. right. eauto. }
  assert (N1 : holds_nothing w (Returns (candidate_script_dir w)))
    by (eexists; eauto).
  destruct (candidate_cwd w) as [cwd|e] eqn:C2; cbn [probe_bind].
  2:{ exists [Returns (candidate_script_dir w)], (Raises e), [candidate_home w].
      split; [reflexivity|]. split; [repeat constructor; exact N1|]. left.
      reflexivity. }
  destruct (path_exists w cwd) as [[]|e2] eqn:E2; cbn [probe_bind].
  { split; [exact E2|].
    exists [Returns (candidate_script_dir w)], [candidate_home w].
    split; [reflexivity|]. repeat constructor. exact N1. }
  2:{ exists [Returns (candidate_script_dir w)], (Returns cwd), [candidate_home w].
      split; [reflexivity|]. split; [repeat constructor; exact N1|]. right.
      eauto. }
  assert (N2 : holds_nothing w (Returns cwd)) by (eexists; eauto).
  destruct (candidate_home w) as [home|e] eqn:C3; cbn [probe_bind].
  2:{ exists [Returns (candidate_script_dir w); Returns cwd], (Raises e), [].
      split; [reflexivity|]. split; [repeat constructor; assumption|]. left.
      reflexivity. }
  destruct (path_exists w home) as [[]|e3] eqn:E3; cbn [probe_bind].
  - split; [exact E3|].
    exists [Returns (candidate_script_dir w); Returns cwd], [].
    split; [reflexivity|]. repeat constructor; assumption.
  - repeat constructor; try assumption. eexists; eauto.
  - exists [Returns (candidate_script_dir w); Returns cwd], (Returns home), [].
    split; [reflexivity|]. split; [repeat constructor; assumption|]. right.
    eauto.
Qed.

(** X2: a dispatch ends in exactly one of three ways, and leaves the
    session alone in each.  When the lookup raises, the exception reaches
    the caller and nothing is printed or launched.  When the lookup
    returns, the dispatch returns: after exactly one launch, which the
    spawn accepted, and no console output; or after exactly two console
    lines, the second carrying the message, and no launch. *)
Theorem X2_launch_or_console (w : world) (success : bool) (message : str)
    (notebook_name : option str) (s : session) :
  let res := _show_alert w success message notebook_name s in
  session_of res = s
  /\ match _get_alert_script_path w with
     | Raises e =>
         result_of res = Raised e
         /\ trace_of res = [EvNotify success message notebook_name]
     | Returns found =>
         result_of res = Normal tt
         /\ ((exists argv,
                trace_of res = [EvNotify success message notebook_name;
                                EvPopen argv]
                /\ located found <> None
                /\ Popen w argv = Returns tt)
             \/ (exists warning,
                   trace_of res = [EvNotify success message notebook_name;
                                   EvPrint warning;
                                   EvPrint (console_line success message)]
                   /\ contains (console_line success message) message
                   /\ (located found = None -> warning = NOT_FOUND_WARNING)
                   /\ (forall alert_script, located found = Some alert_script ->
                       exists e, warning = LAUNCH_WARNING e)))
     end.
Proof.
  intros res. subst res. rewrite _show_alert_run.
  cbn [result_of session_of trace_of fst snd].
  split; [reflexivity|].
  unfold launch_events, dispatch_result.
  destruct (_get_alert_script_path w) as [found|e]; [|split; reflexivity].
  split; [reflexivity|].
  pose proof (console_line_contains success message) as Hc.
  destruct (located found) as [script|].
  - cbv zeta. destruct (Popen w _) as [[]|e] eqn:Q.
    + left. eexists. split; [reflexivity|]. split; [discriminate|exact Q].
    + right. exists (LAUNCH_WARNING e). split; [reflexivity|].
      split; [exact Hc|]. split; [discriminate|]. intros _ _. eauto.
  - right. exists NOT_FOUND_WARNING. split; [reflexivity|].
    split; [exact Hc|]. split; [reflexivity|]. intros ? H. discriminate.
Qed.

Lemma same_launcher_lookup (w w' : world) :
  same_launcher w w' -> _get_alert_script_path w = _get_alert_script_path w'.
Proof.
  intros (H1 & H2 & H3 & He & _). unfold _get_alert_script_path.
  rewrite H1, H2, H3, He.
  destruct (path_exists w' _) as [[]|]; cbn [probe_bind]; try reflexivity.
  destruct (candidate_cwd w') as [q|]; cbn [probe_bind]; try reflexivity.
  rewrite He. destruct (path_exists w' q) as [[]|]; cbn [probe_bind];
    try reflexivity.
  destruct (candidate_home w') as [q'|]; cbn [probe_bind]; try reflexivity.
  rewrite He. reflexivity.
Qed.

(** X3: a supplied label is used as it is and nothing is probed for it.
    In two environments that agree on the launcher (paths, files,
    interpreter, spawn) a dispatch with a label has the same trace,
    whatever the label probes and the sessions are. *)
Theorem X3_supplied_label_skips_probing (w w' : world) (success : bool)
    (message label : str) (s s' : session) :
  same_launcher w w' ->
  trace_of (_show_alert w success message (Some label) s) =
  trace_of (_show_alert w' success message (Some label) s').
Proof.
  intros H. pose proof (same_launcher_lookup w w' H) as L.
  destruct H as (_ & _ & _ & _ & Hx & Hp).
  rewrite !_show_alert_run. cbn [trace_of snd].
  unfold launch_events, label_for. rewrite L, Hx.
  destruct (_get_alert_script_path w') as [found|]; [|reflexivity].
  destruct (located _); [|reflexivity].
  cbv zeta. rewrite Hp. reflexivity.
Qed.

Lemma status_token_decoded (success : bool) :
  bool_decide (status_token success = lit "success") = success.
Proof. destruct success; reflexivity. Qed.

(** X4: the status, message and label survive the process boundary.  For
    every launch of a dispatch, the notifier started with that argument
    vector (its [sys.argv] is the vector without the interpreter) shows the
    window of the same status, message and label. *)
Theorem X4_dispatch_reaches_notifier (w : world) (success : bool)
    (message : str) (notebook_name : option str) (s : session)
    (argv : list str) (time_str : str) :
  In (EvPopen argv) (trace_of (_show_alert w success message notebook_name s)) ->
  main time_str (drop 1 argv) =
  Shown (show_alert_window time_str success message
           (label_for w notebook_name s)).
Proof.
  rewrite _show_alert_run. cbn [trace_of snd]. unfold launch_events.
  intros H.
  assert (E : exists script,
             argv = [sys_executable w; script; status_token success; message;
                     label_for w notebook_name s]).
  { destruct (_get_alert_script_path w) as [found|];
      [|destruct H as [H|[]]; discriminate].
    destruct (located found) as [script|].
    - cbv zeta in H. destruct (Popen w _) as [[]|e].
      + destruct H as [H|[H|[]]]; [discriminate|]. inversion H. eauto.
      + destruct H as [H|[H|[H|[]]]]; discriminate.
    - destruct H as [H|[H|[H|[]]]]; discriminate. }
  destruct E as [script ->].
  cbn [drop]. unfold main. cbn [length Nat.ltb Nat.leb nth].
  rewrite status_token_decoded. reflexivity.
Qed.

(** ** Further properties of label resolution *)

(** X8: the connection-file and history probes are inert, and so are the
    session flags: the label depends on the shell's presence, on the
    namespace lookup and on the parent's command line only. *)
Theorem X8_label_depends_on_two_probes (w w' : world) (s s' : session) :
  user_ns w = user_ns w' ->
  parent_cmdline w = parent_cmdline w' ->
  ipython s = ipython s' ->
  result_of (_get_notebook_name w s) = result_of (_get_notebook_name w' s').
Proof.
  intros Hu Hp Hi. rewrite !_get_notebook_name_run. unfold strategy_result.
  rewrite !probe_vsc_variable_run, !probe_parent_cmdline_run.
  cbn [result_of fst]. rewrite Hu, Hp, Hi. reflexivity.
Qed.

Lemma find_first_match {A} (f : A -> bool) (before : list A) (x : A)
    (after : list A) :
  Forall (fun a => f a = false) before ->
  f x = true ->
  List.find f (before ++ x :: after) = Some x.
Proof.
  intros Hb Hx. induction Hb as [|a l Ha _ IH]; cbn [app List.find].
  - rewrite Hx. reflexivity.
  - rewrite Ha. exact IH.
Qed.

Lemma find_no_match {A} (f : A -> bool) (l : list A) :
  Forall (fun a => f a = false) l -> List.find f l = None.
Proof.
  intros H. induction H as [|a l Ha _ IH]; [reflexivity|].
  cbn [List.find]. rewrite Ha. exact IH.
Qed.

(** X9: the parent's command line names the notebook by its first
    argument ending in [.ipynb].  With a shell and nothing from the
    injected variable, the label is the stem of that argument, whatever
    follows it; with no such argument there is no label. *)
Theorem X9_first_notebook_argument (w : world) (s : session) (r : routine)
    (cmdline : list str) :
  ipython s = Instance r ->
  strategy_result (probe_vsc_variable w) s = None ->
  parent_cmdline w = Returns (Some cmdline) ->
  (forall before arg after,
     cmdline = before ++ arg :: after ->
     Forall (fun a => endswith a (lit ".ipynb") = false) before ->
     endswith arg (lit ".ipynb") = true ->
     result_of (_get_notebook_name w s) = Normal (Some (stem arg)))
  /\ (Forall (fun a => endswith a (lit ".ipynb") = false) cmdline ->
      result_of (_get_notebook_name w s) = Normal None).
Proof.
  intros Hi Ha Hp.
  rewrite _get_notebook_name_run, Hi, Ha. cbn [result_of fst first_successful].
  unfold strategy_result. rewrite probe_parent_cmdline_run, Hp.
  cbn [result_of fst]. split.
  - intros before arg after -> Hb Hx.
    rewrite (find_first_match is_ipynb before arg after Hb Hx). reflexivity.
  - intros Hn. rewrite (find_no_match is_ipynb cmdline Hn). reflexivity.
Qed.

(** ** Further properties of the session *)

Lemma run_command_session (c : command) (s : session) :
  session_of (run_command c s) =
  match c with
  | CmdImport | CmdEnable => session_of (_setup_auto_error_detection s)
  | CmdDone _ _ | CmdError _ _ => s
  | CmdException _ _ =>
      match ipython s with
      | Instance r => after_routine r s
      | _ => s
      end
  end.
Proof.
  destruct c as [| |w m|w m|w a]; cbn [run_command].
  - reflexivity.
  - rewrite enable_alerts_run. reflexivity.
  - rewrite done_run. reflexivity.
  - rewrite error_run. reflexivity.
  - rewrite uncaught_exception_run. destruct (ipython s) as [| |r]; try reflexivity.
    destruct (call_routine_run w r a s) as (t & E & _). rewrite E. reflexivity.
Qed.

Lemma reachable_settled (s : session) : reachable s -> settled s.
Proof.
  induction 1 as [ip Hip|s c _ IH].
  - unfold import_module. rewrite _setup_auto_error_detection_run.
    destruct ip as [| |r]; cbn in *; subst; auto.
  - rewrite run_command_session. unfold settled in *.
    destruct c as [| |w m|w m|w a]; try exact IH;
      try (rewrite _setup_auto_error_detection_run;
           destruct s as [i o [| |r]]; cbn in *;
           destruct IH as [-> IH2]; cbn; auto).
    destruct s as [i o [| |r]]; cbn in *; auto.
    destruct IH as [-> ->]. cbn. auto.
Qed.

(** X10: the invariant of a session.  In every state a session reaches
    after the import, a session with a shell has the hook installed,
    exactly one wrapper over the host's routine; a session without a shell
    has nothing installed and has never alerted.  So [_error_occurred] is
    raised only where the hook is installed. *)
Theorem X10_session_invariant (s : session) :
  reachable s ->
  match ipython s with
  | Instance r =>
      _error_handler_installed s = true /\ r = Custom Original
      /\ wrapper_layers s = 1
  | _ =>
      _error_handler_installed s = false /\ _error_occurred s = false
      /\ wrapper_layers s = 0
  end.
Proof.
  intros R. pose proof (reachable_settled s R) as H.
  unfold settled, wrapper_layers in *.
  destruct (ipython s) as [| |r].
  - destruct H; auto.
  - destruct H; auto.
  - destruct H as [H ->]. auto.
Qed.

(** X11: nothing is ever undone.  Whatever the session, no call lowers a
    flag, removes a wrapper layer, or changes whether there is a shell. *)
Theorem X11_flags_never_reset (c : command) (s : session) :
  let s' := session_of (run_command c s) in
  (_error_handler_installed s = true -> _error_handler_installed s' = true)
  /\ (_error_occurred s = true -> _error_occurred s' = true)
  /\ wrapper_layers s <= wrapper_layers s'
  /\ (forall r, ipython s = Instance r -> exists r', ipython s' = Instance r')
  /\ (ipython s = NotImportable -> ipython s' = NotImportable)
  /\ (ipython s = NoInstance -> ipython s' = NoInstance).
Proof.
  intros s'. subst s'. rewrite run_command_session.
  destruct c as [| |w m|w m|w a];
    try rewrite _setup_auto_error_detection_run;
    unfold wrapper_layers;
    destruct s as [[] [] [| |[|r]]]; cbn;
    repeat split; intros; try discriminate; eauto; lia.
Qed.

(** X12: only a failing lookup raises into the notebook.  The import
    and [enable_alerts()] never raise.  A run of calls whose notifier
    lookups all return returns normally: an import error, a type error
    from the path, a failing probe and a failing spawn are all caught on
    the way.  And whatever a run of calls raises is what the lookup of
    one of its [done], [error] or exception dispatches raised. *)
Theorem X12_only_the_lookup_raises (cs : list command) (s : session) :
  result_of (import_module s) = Normal tt
  /\ result_of (enable_alerts s) = Normal tt
  /\ (Forall (fun c => match c with
                       | CmdDone w _ | CmdError w _ | CmdException w _ =>
                           exists found, _get_alert_script_path w = Returns found
                       | CmdImport | CmdEnable => True
                       end) cs ->
      result_of (run_commands cs s) = Normal tt)
  /\ (forall e,
        result_of (run_commands cs s) = Raised e ->
        exists c w,
          In c cs
          /\ _get_alert_script_path w = Raises e
          /\ match c with
             | CmdDone w' _ | CmdError w' _ | CmdException w' _ => w' = w
             | CmdImport | CmdEnable => False
             end).
Proof.
  split; [exact (run_command_result CmdImport s)|].
  split; [exact (run_command_result CmdEnable s)|].
  split.
  - intros H. apply run_commands_returns.
    eapply Forall_impl; [exact H|]. intros c Hc.
    destruct c as [| |w m|w m|w a]; cbn [calm]; auto;
      destruct Hc as [found Hc]; unfold dispatch_result; rewrite Hc; reflexivity.
  - intros e H. destruct (run_commands_raised cs s e H) as (c & w & Hin & Hd & Hw).
    exists c, w. split; [exact Hin|]. split; [|exact Hw].
    unfold dispatch_result in Hd.
    destruct (_get_alert_script_path w); [discriminate|]. congruence.
Qed.

(** X13: the wrappers share one flag.  However many wrapper layers the
    shell's routine has, one call of it runs the host's routine exactly
    once and dispatches one error alert when the flag was down and there
    is at least one layer, none otherwise; it never dispatches a success
    alert, and it returns unless the lookup of that one dispatch raises. *)
Theorem X13_layers_share_one_flag (w : world) (r : routine) (args : call_args)
    (s : session) :
  let res := call_routine w r args s in
  result_of res = routine_result w r s
  /\ (dispatch_result w = Normal tt -> result_of res = Normal tt)
  /\ List.filter is_original (trace_of res) = [EvOriginal args]
  /\ dispatches false (trace_of res) =
       (if _error_occurred s then 0 else Nat.min 1 (layers r))
  /\ dispatches true (trace_of res) = 0
  /\ _error_occurred (session_of res) = (_error_occurred s || (0 <? layers r)).
Proof.
  intros res. subst res.
  destruct (call_routine_run w r args s) as (t & E & Ho & Hf & Ht).
  rewrite E. cbn [result_of session_of trace_of fst snd].
  split; [reflexivity|].
  split.
  { intros D. unfold routine_result. rewrite D.
    destruct (_error_occurred s); destruct r; reflexivity. }
  split; [cbn [List.filter is_original]; rewrite Ho; reflexivity|].
  change (EvOriginal args :: t) with ([EvOriginal args] ++ t).
  rewrite !dispatches_app, Hf, Ht.
  split; [reflexivity|]. split; [reflexivity|].
  destruct r; destruct s as [i [] ip]; reflexivity.
Qed.

Lemma nothing_anywhere (w : world) :
  Forall (holds_nothing w) (candidates w) ->
  _get_alert_script_path w = Returns None.
Proof.
  unfold candidates. intros Hc. unfold _get_alert_script_path.
  inversion Hc as [|? ? (q1 & Q1 & H1) Hc1]; subst.
  inversion Hc1 as [|? ? (q2 & Q2 & H2) Hc2]; subst.
  inversion Hc2 as [|? ? (q3 & Q3 & H3) _]; subst.
  inversion Q1; subst q1. rewrite H1, Q2. cbn [probe_bind].
  rewrite H2, Q3. cbn [probe_bind]. rewrite H3. reflexivity.
Qed.

(** X14: an automatic alert that could not be shown is not retried.  In a
    hooked session the first exception raises the flag before it
    dispatches; when no script is found it only prints the two console
    lines, and every later exception, in any environment, only runs the
    host's routine and returns. *)
Theorem X14_failed_alert_not_retried (w : world) (args : call_args)
    (s : session) :
  ipython s = Instance (Custom Original) ->
  _error_occurred s = false ->
  Forall (holds_nothing w) (candidates w) ->
  let res := uncaught_exception w args s in
  trace_of res =
    [EvOriginal args;
     EvNotify false (error_msg_of w) None;
     EvPrint NOT_FOUND_WARNING;
     EvPrint (console_line false (error_msg_of w))]
  /\ _error_occurred (session_of res) = true
  /\ (forall w' args',
        uncaught_exception w' args' (session_of res) =
        (Normal tt, session_of res, [EvOriginal args'])).
Proof.
  intros Hi Ho Hc res. subst res.
  pose proof (nothing_anywhere w Hc) as L.
  rewrite uncaught_exception_run, Hi. cbn [call_routine].
  rewrite (custom_showtraceback_run w _ args s s [EvOriginal args] eq_refl).
  cbn [trace_of session_of fst snd].
  unfold hook_events at 1. rewrite Ho. unfold launch_events. rewrite L.
  cbn [located].
  split; [reflexivity|]. split; [reflexivity|].
  intros w' args'. rewrite uncaught_exception_run.
  cbn [with_flags ipython]. rewrite Hi. cbn [call_routine].
  rewrite (custom_showtraceback_run w' _ args' _ _ [EvOriginal args'] eq_refl).
  unfold hook_events. cbn [with_flags _error_occurred _error_handler_installed ipython app].
  reflexivity.
Qed.

(** X15: after the import [enable_alerts()] only prints.  In every state a
    session reaches, the call returns, leaves the session exactly as it
    was and prints its three banner lines and nothing else: the import has
    already installed what can be installed. *)
Theorem X15_enable_alerts_only_prints (s : session) :
  reachable s ->
  enable_alerts s = (Normal tt, s, map EvPrint BANNER).
Proof.
  intros R. pose proof (reachable_settled s R) as H. unfold settled in H.
  rewrite enable_alerts_run, _setup_auto_error_detection_run.
  destruct s as [i o [| |r]]; cbn in *; destruct H as [-> _]; reflexivity.
Qed.

Lemma launch_events_popen (w : world) (success : bool) (message : str)
    (notebook_name : option str) (s : session) (argv : list str) :
  In (EvPopen argv) (launch_events w success message notebook_name s) ->
  exists script,
    argv = [sys_executable w; script; status_token success; message;
            label_for w notebook_name s].
Proof.
  unfold launch_events.
  destruct (_get_alert_script_path w) as [found|]; [|intros []].
  destruct (located found) as [script|].
  - cbv zeta. destruct (Popen w _) as [[]|e].
    + intros [H|[]]. inversion H. eauto.
    + intros [H|[H|[]]]; discriminate.
  - intros [H|[H|[]]]; discriminate.
Qed.

Lemma main_on_launch (time_str exe script message label : str) (success : bool) :
  main time_str (drop 1 [exe; script; status_token success; message; label]) =
  Shown (show_alert_window time_str success message label).
Proof.
  cbn [drop]. unfold main. cbn [length Nat.ltb Nat.leb nth].
  rewrite status_token_decoded. reflexivity.
Qed.

Lemma error_msg_of_nonempty (w : world) : error_msg_of w <> [].
Proof.
  assert (G : GENERIC_ERROR <> []) by discriminate.
  unfold error_msg_of.
  destruct (exc_info w) as [[c|] [v|]]; try exact G.
  destruct (class_truth c) as [[]|]; try exact G.
  destruct (value_truth v) as [[]|]; try exact G.
  destruct (str_of_value v) as [text|]; [|exact G].
  intros H. apply (f_equal length) in H. rewrite !length_app in H.
  change (length (lit ": ")) with 2 in H. cbn in H. lia.
Qed.

Lemma call_routine_chain (w : world) (r : routine) (args : call_args)
    (s : session) :
  trace_of (call_routine w (Custom r) args s) =
  trace_of (call_routine w r args s) ++ hook_events w (after_routine r s).
Proof.
  destruct (call_routine_run w r args s) as (t & E & _).
  cbn [call_routine]. rewrite E. cbn [trace_of snd].
  destruct (routine_result w r s) as [[]|e] eqn:R.
  - rewrite (custom_showtraceback_run w _ args s _ _ E). reflexivity.
  - rewrite (custom_showtraceback_raised w _ args s _ _ e E).
    cbn [trace_of snd]. unfold routine_result, hook_events in *.
    destruct r; destruct s as [i [] ip]; cbn in *; try discriminate.
    rewrite app_nil_r. reflexivity.
Qed.

(** What a call of the shell's routine can leave in the trace: the host's
    routine, and the one dispatch of the hook. *)
Lemma call_routine_events (w : world) (r : routine) (args : call_args)
    (s : session) (e : event) :
  In e (trace_of (call_routine w r args s)) ->
  e = EvOriginal args
  \/ (In (EvNotify false (error_msg_of w) None)
         (trace_of (call_routine w r args s))
      /\ (e = EvNotify false (error_msg_of w) None
          \/ In e (launch_events w false (error_msg_of w) None s))).
Proof.
  induction r as [|r IH].
  - cbn. intros [H|[]]. left. congruence.
  - rewrite call_routine_chain.
    assert (L : launch_events w false (error_msg_of w) None (after_routine r s)
                = launch_events w false (error_msg_of w) None s).
    { destruct r; [reflexivity|]. cbn [after_routine]. apply launch_events_flags. }
    intros H. apply in_app_or in H. destruct H as [H|H].
    + destruct (IH H) as [->|[N K]]; [left; reflexivity|].
      right. split; [apply in_or_app; left; exact N|exact K].
    + unfold hook_events in *.
      destruct (_error_occurred (after_routine r s)); [destruct H|].
      right. split; [apply in_or_app; right; left; reflexivity|].
      destruct H as [<-|H]; [left; reflexivity|].
      right. rewrite <- L. exact H.
Qed.

(** X16: an automatic alert reaches the notifier as an error.  Whatever
    the session, every notifier launched by an uncaught exception comes
    with a dispatcher call of the hook in the same trace, carries a
    non-empty message, and makes the notifier show the error window with
    that message as the end of its text. *)
Theorem X16_automatic_alert_is_an_error_window (w : world) (args : call_args)
    (s : session) (argv : list str) (time_str : str) :
  In (EvPopen argv) (trace_of (uncaught_exception w args s)) ->
  exists error_msg label,
    In (EvNotify false error_msg None) (trace_of (uncaught_exception w args s))
    /\ error_msg <> []
    /\ main time_str (drop 1 argv) =
         Shown (show_alert_window time_str false error_msg label)
    /\ title_text (show_alert_window time_str false error_msg label) = ERROR_TITLE
    /\ error_msg `suffix_of`
         display_msg (show_alert_window time_str false error_msg label).
Proof.
  rewrite uncaught_exception_run.
  destruct (ipython s) as [| |r]; [intros []..|].
  intros H. destruct (call_routine_events w r args s _ H) as [E|[N [E|L]]];
    try discriminate.
  destruct (launch_events_popen w false _ None s argv L) as [script ->].
  exists (error_msg_of w), (label_for w None s).
  pose proof (error_msg_of_nonempty w) as Hne.
  split; [exact N|]. split; [exact Hne|].
  split; [apply main_on_launch|]. split; [reflexivity|].
  cbn [display_msg show_alert_window].
  destruct (error_msg_of w) as [|c m]; [contradiction|]. cbn [truthy].
  eexists. reflexivity.
Qed.

(** X17: what the degraded console line tells.  With a non-empty message
    the line names the status, SUCCESS or ERROR, so the two cannot be
    confused; with an empty message the line is empty for both and the
    status is not printed at all. *)
Theorem X17_console_line_status (message : str) :
  (message = [] ->
     console_line true message = [] /\ console_line false message = [])
  /\ (message <> [] ->
      console_line true message <> console_line false message
      /\ contains (console_line true message) (lit "SUCCESS: " ++ message)
      /\ contains (console_line false message) (lit "ERROR: " ++ message)).
Proof.
  split; [intros ->; split; reflexivity|].
  intros H. destruct message as [|c m]; [contradiction|].
  unfold console_line. cbn [truthy]. split; [|split].
  - intros E. inversion E.
  - exists (CHECK_MARK :: lit " "), []. rewrite app_nil_r. reflexivity.
  - exists (CHECK_MARK :: lit " "), []. rewrite app_nil_r. reflexivity.
Qed.

(** X18: the manual calls and the session.  [done(m)] and [error(m)]
    each make exactly one dispatcher call, with their status and [m],
    never write the session and never read the two flags: with any other
    values of [_error_occurred] and [_error_handler_installed] they end
    the same way with the same trace.  When the notifier lookup returns,
    each returns and its last output is the confirmation line, which
    contains [m], and [n] calls in a row make [n] dispatcher calls. *)
Theorem X18_manual_calls_and_flags (w : world) (m : str) (s : session) :
  notifications (trace_of (done w m s)) = [EvNotify true m None]
  /\ notifications (trace_of (error w m s)) = [EvNotify false m None]
  /\ session_of (done w m s) = s
  /\ session_of (error w m s) = s
  /\ (forall installed occurred,
        trace_of (done w m (with_flags installed occurred s)) = trace_of (done w m s)
        /\ result_of (done w m (with_flags installed occurred s)) =
           result_of (done w m s)
        /\ trace_of (error w m (with_flags installed occurred s)) =
           trace_of (error w m s)
        /\ result_of (error w m (with_flags installed occurred s)) =
           result_of (error w m s))
  /\ ((exists found, _get_alert_script_path w = Returns found) ->
      result_of (done w m s) = Normal tt
      /\ last (trace_of (done w m s)) = Some (EvPrint (CHECK_MARK :: lit " " ++ m))
      /\ contains (CHECK_MARK :: lit " " ++ m) m
      /\ result_of (error w m s) = Normal tt
      /\ last (trace_of (error w m s)) = Some (EvPrint (BALLOT_X :: lit " " ++ m))
      /\ contains (BALLOT_X :: lit " " ++ m) m
      /\ (forall n,
            dispatches true (trace_of (times n (done w m) s)) = n
            /\ dispatches false (trace_of (times n (error w m) s)) = n)).
Proof.
  assert (Hc : forall c, contains (c :: lit " " ++ m) m).
  { intros c. exists (c :: lit " "), []. rewrite app_nil_r. reflexivity. }
  assert (Hnot : forall b (l : trace),
            (forall e, In e l -> is_notify e = false) ->
            notifications (EvNotify b m None :: launch_events w b m None s ++ l) =
            [EvNotify b m None]).
  { intros b l Hl.
    change (EvNotify b m None :: ?t ++ l) with ([EvNotify b m None] ++ t ++ l).
    rewrite !notifications_app, launch_events_notifications.
    cbn [app notifications List.filter is_notify]. f_equal.
    unfold notifications. induction l as [|e l IH]; [reflexivity|].
    cbn [List.filter]. rewrite (Hl e (or_introl eq_refl)).
    apply IH. intros e' He'. apply Hl. right. exact He'. }
  split.
  { rewrite done_run. cbn [trace_of snd]. apply Hnot.
    destruct (dispatch_result w); intros ev Hin;
      [destruct Hin as [<-|[]]; reflexivity|destruct Hin]. }
  split.
  { rewrite error_run. cbn [trace_of snd]. apply Hnot.
    destruct (dispatch_result w); intros ev Hin;
      [destruct Hin as [<-|[]]; reflexivity|destruct Hin]. }
  split; [rewrite done_run; reflexivity|].
  split; [rewrite error_run; reflexivity|].
  split.
  { intros installed occurred. rewrite !done_run, !error_run.
    cbn [trace_of result_of fst snd]. rewrite !launch_events_flags.
    repeat split. }
  intros [found L].
  assert (D : dispatch_result w = Normal tt)
    by (unfold dispatch_result; rewrite L; reflexivity).
  assert (Ed : done w m s =
               (Normal tt, s,
                EvNotify true m None :: launch_events w true m None s
                ++ [EvPrint (CHECK_MARK :: lit " " ++ m)]))
    by (rewrite done_run, D; reflexivity).
  assert (Ee : error w m s =
               (Normal tt, s,
                EvNotify false m None :: launch_events w false m None s
                ++ [EvPrint (BALLOT_X :: lit " " ++ m)]))
    by (rewrite error_run, D; reflexivity).
  rewrite Ed, Ee. cbn [result_of trace_of fst snd].
  change (EvNotify ?b m None :: ?t ++ ?l) with ([EvNotify b m None] ++ t ++ l).
  rewrite !app_assoc, !last_snoc.
  do 6 (split; [auto|]).
  intros n. rewrite (times_run n _ s _ Ed), (times_run n _ s _ Ee).
  cbn [trace_of snd]. rewrite !dispatches_concat_replicate.
  change (EvNotify ?b m None :: ?t ++ ?l) with ([EvNotify b m None] ++ t ++ l).
  rewrite !dispatches_app, !launch_events_dispatches.
  cbn. lia.
Qed.

End Program.

(** C10: the notifier's entry point does not validate the status token.
    With at least one positional argument the window is the success window
    exactly when the token is the string "success"; any other token, such
    as "Success", gives the error window.  With no positional argument the
    usage line is printed and the exit status is 1, and no window is
    shown. *)
Theorem C10_status_token_not_validated (time_str prog token : str)
    (rest : list str) :
  main time_str (prog :: token :: rest) =
    Shown (show_alert_window time_str (bool_decide (token = lit "success"))
             (default [] (rest !! 0)) (default [] (rest !! 1)))
  /\ (bool_decide (token = lit "success") = true <-> token = lit "success")
  /\ title_text (show_alert_window time_str (bool_decide (token = lit "success"))
                   (default [] (rest !! 0)) (default [] (rest !! 1))) =
       (if bool_decide (token = lit "success") then COMPLETE_TITLE else ERROR_TITLE)
  /\ main time_str (prog :: lit "Success" :: rest) =
       Shown (show_alert_window time_str false
                (default [] (rest !! 0)) (default [] (rest !! 1)))
  /\ COMPLETE_TITLE <> ERROR_TITLE
  /\ main time_str [] = Exited [USAGE] 1
  /\ main time_str [prog] = Exited [USAGE] 1.
Proof.
  split; [destruct rest as [|m [|n rest]]; reflexivity|].
  split; [apply bool_decide_eq_true|].
  split; [reflexivity|].
  split; [destruct rest as [|m [|n rest]]; reflexivity|].
  split; [discriminate|].
  split; reflexivity.
Qed.

(** ** Further properties of the notifier *)

(** X5: the notifier reads four entries of [sys.argv] and no more: what
    follows the notebook name is ignored, and a missing message or
    notebook name is the same as an empty one. *)
Theorem X5_main_reads_four_arguments (time_str : str) (sys_argv : list str) :
  main time_str sys_argv = main time_str (take 4 sys_argv)
  /\ (forall prog token message,
        main time_str [prog; token; message] =
        main time_str [prog; token; message; []])
  /\ (forall prog token,
        main time_str [prog; token] = main time_str [prog; token; []; []]).
Proof.
  split; [|split; reflexivity].
  destruct sys_argv as [|a [|b [|c [|d rest]]]]; reflexivity.
Qed.

Lemma lit_completed_nonempty (time_str : str) :
  lit "Completed at " ++ time_str <> [].
Proof.
  intros H. apply (f_equal length) in H. rewrite length_app in H.
  change (length (lit "Completed at ")) with 13 in H. cbn in H. lia.
Qed.

(** X6: what the window says.  The text is never empty: it ends with the
    message, or with the completion time when the message is empty, and it
    starts with the notebook name and a blank line when there is a name.
    It is the same for a success and for an error, and the system
    notification gets its first 100 characters at most. *)
Theorem X6_display_text (time_str message notebook_name : str) (success : bool) :
  let v := show_alert_window time_str success message notebook_name in
  display_msg v <> []
  /\ (message <> [] -> message `suffix_of` display_msg v)
  /\ (message = [] -> (lit "Completed at " ++ time_str) `suffix_of` display_msg v)
  /\ (notebook_name <> [] ->
      (notebook_name ++ [NEWLINE; NEWLINE]) `prefix_of` display_msg v)
  /\ (notebook_name = [] ->
      display_msg v = if truthy message then message
                      else lit "Completed at " ++ time_str)
  /\ display_msg v =
       display_msg (show_alert_window time_str (negb success) message notebook_name)
  /\ notification_text v `prefix_of` display_msg v
  /\ length (notification_text v) = Nat.min 100 (length (display_msg v)).
Proof.
  intros v. subst v. cbn [display_msg notification_text show_alert_window].
  split.
  { destruct notebook_name as [|c n]; cbn [truthy app].
    - destruct message; cbn [truthy]; [apply lit_completed_nonempty|discriminate].
    - discriminate. }
  split.
  { intros Hm. destruct message as [|c m]; [contradiction|]. cbn [truthy].
    eexists. reflexivity. }
  split.
  { intros ->. cbn [truthy]. eexists. reflexivity. }
  split.
  { intros Hn. destruct notebook_name as [|c n]; [contradiction|]. cbn [truthy].
    eexists. reflexivity. }
  split; [intros ->; reflexivity|].
  split; [reflexivity|].
  split; [apply prefix_take|].
  rewrite length_take. reflexivity.
Qed.

(** X7: the window is centred.  On each axis the margin after the window
    exceeds the margin before it by at most one pixel, and on a screen at
    least as large as the window the window lies within the screen. *)
Theorem X7_window_centred (screen_width screen_height : Z) :
  let x := (window_position screen_width screen_height).1 in
  let y := (window_position screen_width screen_height).2 in
  (0 <= (screen_width - window_width - x) - x <= 1
   /\ 0 <= (screen_height - window_height - y) - y <= 1
   /\ (window_width <= screen_width -> 0 <= x /\ x + window_width <= screen_width)
   /\ (window_height <= screen_height ->
       0 <= y /\ y + window_height <= screen_height))%Z.
Proof.
  unfold window_position, window_width, window_height. cbn [fst snd].
  repeat split; intros; Z.div_mod_to_equations; lia.
Qed.

(** ** The theorems at concrete inputs *)

Example show_alert_missing_script :
  _show_alert posix_stem missing_world false (lit "boom") None kernel_session =
  (Normal tt, kernel_session,
   [EvNotify false (lit "boom") None;
    EvPrint NOT_FOUND_WARNING;
    EvPrint (CHECK_MARK :: lit " ERROR: boom")]).
Proof. vm_compute. reflexivity. Qed.

Example show_alert_refused_spawn :
  trace_of (_show_alert posix_stem refusing_world true [] None kernel_session) =
  [EvNotify true [] None;
   EvPrint (WARNING_SIGN :: lit " Warning: Could not launch alert: fork failed");
   EvPrint []].
Proof. vm_compute. reflexivity. Qed.

Example label_from_parent_cmdline :
  result_of (_get_notebook_name posix_stem refusing_world kernel_session) =
  Normal (Some (lit "report")).
Proof. vm_compute. reflexivity. Qed.

Example label_prefers_injected_variable :
  result_of (_get_notebook_name posix_stem sample_world kernel_session) =
  Normal (Some (lit "analysis")).
Proof. vm_compute. reflexivity. Qed.

Example label_without_shell :
  _get_notebook_name posix_stem sample_world script_session =
  (Normal None, script_session, []).
Proof. vm_compute. reflexivity. Qed.

Example done_processed_rows :
  done posix_stem sample_world (lit "Processed 1000 rows") kernel_session =
  (Normal tt, kernel_session,
   [EvNotify true (lit "Processed 1000 rows") None;
    EvPopen [lit "/usr/bin/python3"; lit "/pkg/_show_alert.py"; lit "success";
             lit "Processed 1000 rows"; lit "analysis"];
    EvPrint (CHECK_MARK :: lit " Processed 1000 rows")]).
Proof. vm_compute. reflexivity. Qed.

Example long_exception_text_is_cut :
  notifications (trace_of (uncaught_exception posix_stem refusing_world no_args
                             kernel_session)) =
  [EvNotify false (lit "KeyError: " ++ replicate 100 120%N) None].
Proof. vm_compute. reflexivity. Qed.

Example main_misspelled_token :
  main (lit "09:00:00 AM") [lit "_show_alert.py"; lit "sucess"; lit "done"] =
  Shown (show_alert_window (lit "09:00:00 AM") false (lit "done") []).
Proof. vm_compute. reflexivity. Qed.

Example stem_of_directory_path :
  posix_stem (lit "/home/u/nb/") = lit "nb"
  /\ posix_stem (lit "u/.") = lit "u"
  /\ posix_stem (lit ".ipynb") = lit ".ipynb"
  /\ posix_stem (lit "runs/report.v2.ipynb") = lit "report.v2".
Proof. vm_compute. repeat split. Qed.

Example done_from_removed_cwd :
  done posix_stem removed_cwd_world (lit "finished") kernel_session =
  (Raised FileNotFoundError, kernel_session,
   [EvNotify true (lit "finished") None]).
Proof. vm_compute. reflexivity. Qed.

Example hook_from_removed_cwd :
  uncaught_exception posix_stem removed_cwd_world no_args kernel_session =
  (Raised FileNotFoundError, with_flags true true kernel_session,
   [EvOriginal no_args; EvNotify false (lit "ValueError: bad value") None]).
Proof. vm_compute. reflexivity. Qed.

(** C7, as first stated, fails on a falsy exception: [sys.exc_info()]
    gives a class and a value, the value has a text, and the message
    dispatched is the generic one, not the class name and the text. *)
Lemma C7_counterexample :
  exc_info falsy_exception_world =
    (Some {| class_name := lit "EmptyBatch"; class_truth := Returns true |},
     Some {| str_of_value := Returns (lit "no rows");
             value_truth := Returns false |})
  /\ notifications
       (trace_of (uncaught_exception posix_stem falsy_exception_world no_args
                    kernel_session)) =
     [EvNotify false (lit "An error occurred during execution") None]
  /\ lit "An error occurred during execution" <>
     lit "EmptyBatch" ++ lit ": " ++ take 100 (lit "no rows").
Proof.
  split; [reflexivity|]. split; [vm_compute; reflexivity|].
  vm_compute. discriminate.
Qed.

Lemma kernel_session_reachable : reachable posix_stem kernel_session.
Proof. apply reach_import. reflexivity. Defined.

Lemma script_session_reachable : reachable posix_stem script_session.
Proof. apply reach_import. exact Logic.I. Defined.

Lemma C1_witness :
  reachable posix_stem kernel_session
  /\ _error_handler_installed kernel_session = true
  /\ _error_occurred kernel_session = false
  /\ hook_alerts posix_stem
       [CmdException sample_world no_args;
        CmdError sample_world (lit "manual");
        CmdException refusing_world no_args;
        CmdException missing_world no_args] kernel_session = 1.
Proof.
  split; [exact kernel_session_reachable|].
  split; [reflexivity|]. split; [reflexivity|].
  apply (C1_one_error_alert_per_session posix_stem kernel_session _
           kernel_session_reachable); reflexivity.
Defined.


Lemma C7_witness :
  ipython kernel_session = Instance (Custom Original)
  /\ _error_occurred kernel_session = false
  /\ exists error_msg rest,
       trace_of (uncaught_exception posix_stem sample_world no_args kernel_session) =
       EvOriginal no_args :: EvNotify false error_msg None :: rest.
Proof.
  split; [reflexivity|]. split; [reflexivity|].
  destruct (C7_automatic_alert_message posix_stem sample_world no_args
              kernel_session eq_refl eq_refl) as (error_msg & rest & E & _).
  exists error_msg, rest. exact E.
Defined.

Lemma C9_witness :
  reachable posix_stem script_session
  /\ (ipython script_session = NotImportable \/ ipython script_session = NoInstance)
  /\ hook_alerts posix_stem
       [CmdException sample_world no_args; CmdException sample_world no_args]
       (session_of (enable_alerts script_session)) = 0.
Proof.
  split; [exact script_session_reachable|].
  split; [right; reflexivity|].
  apply (C9_no_shell_no_hook posix_stem script_session script_session_reachable
           (or_intror eq_refl)).
Defined.

Lemma X3_witness :
  same_launcher sample_world unprobed_world
  /\ trace_of (_show_alert posix_stem sample_world false (lit "boom")
                 (Some (lit "nightly")) kernel_session) =
     trace_of (_show_alert posix_stem unprobed_world false (lit "boom")
                 (Some (lit "nightly")) script_session).
Proof.
  assert (H : same_launcher sample_world unprobed_world)
    by (repeat split; reflexivity).
  split; [exact H|].
  apply (X3_supplied_label_skips_probing posix_stem sample_world unprobed_world
           false (lit "boom") (lit "nightly") kernel_session script_session H).
Defined.

Lemma X4_witness :
  In (EvPopen [lit "/usr/bin/python3"; lit "/pkg/_show_alert.py"; lit "success";
               lit "ok"; lit "analysis"])
     (trace_of (_show_alert posix_stem sample_world true (lit "ok") None
                  kernel_session))
  /\ main (lit "09:00:00 AM")
        [lit "/pkg/_show_alert.py"; lit "success"; lit "ok"; lit "analysis"] =
     Shown (show_alert_window (lit "09:00:00 AM") true (lit "ok") (lit "analysis")).
Proof.
  assert (H : In (EvPopen [lit "/usr/bin/python3"; lit "/pkg/_show_alert.py";
                           lit "success"; lit "ok"; lit "analysis"])
                (trace_of (_show_alert posix_stem sample_world true (lit "ok") None
                             kernel_session)))
    by (vm_compute; right; left; reflexivity).
  split; [exact H|].
  apply (X4_dispatch_reaches_notifier posix_stem sample_world true (lit "ok") None
           kernel_session _ (lit "09:00:00 AM") H).
Defined.

Lemma X8_witness :
  user_ns refusing_world = user_ns reprobed_world
  /\ parent_cmdline refusing_world = parent_cmdline reprobed_world
  /\ ipython kernel_session = ipython (with_flags false true kernel_session)
  /\ result_of (_get_notebook_name posix_stem refusing_world kernel_session) =
     result_of (_get_notebook_name posix_stem reprobed_world
                  (with_flags false true kernel_session)).
Proof.
  split; [reflexivity|]. split; [reflexivity|]. split; [reflexivity|].
  apply (X8_label_depends_on_two_probes posix_stem refusing_world reprobed_world
           kernel_session (with_flags false true kernel_session)
           eq_refl eq_refl eq_refl).
Defined.

Lemma X9_witness :
  ipython kernel_session = Instance (Custom Original)
  /\ strategy_result (probe_vsc_variable posix_stem refusing_world) kernel_session = None
  /\ parent_cmdline refusing_world =
     Returns (Some [lit "jupyter"; lit "run"; lit "runs/report.ipynb"])
  /\ result_of (_get_notebook_name posix_stem refusing_world kernel_session) =
     Normal (Some (posix_stem (lit "runs/report.ipynb"))).
Proof.
  split; [reflexivity|]. split; [reflexivity|]. split; [reflexivity|].
  apply (proj1 (X9_first_notebook_argument posix_stem refusing_world kernel_session
                  (Custom Original) _ eq_refl eq_refl eq_refl)
           [lit "jupyter"; lit "run"] (lit "runs/report.ipynb") []).
  - reflexivity.
  - repeat constructor.
  - reflexivity.
Defined.

Lemma X10_witness :
  reachable posix_stem kernel_session
  /\ _error_handler_installed kernel_session = true
  /\ Custom Original = Custom Original
  /\ wrapper_layers kernel_session = 1.
Proof.
  split; [exact kernel_session_reachable|].
  exact (X10_session_invariant posix_stem kernel_session kernel_session_reachable).
Defined.

Lemma X14_witness :
  ipython kernel_session = Instance (Custom Original)
  /\ _error_occurred kernel_session = false
  /\ Forall (holds_nothing missing_world) (candidates missing_world)
  /\ forall w' args',
       uncaught_exception posix_stem w' args'
         (session_of (uncaught_exception posix_stem missing_world no_args
                        kernel_session)) =
       (Normal tt,
        session_of (uncaught_exception posix_stem missing_world no_args
                      kernel_session),
        [EvOriginal args']).
Proof.
  assert (H : Forall (holds_nothing missing_world) (candidates missing_world))
    by (repeat (constructor; [eexists; split; reflexivity|]); constructor).
  split; [reflexivity|]. split; [reflexivity|]. split; [exact H|].
  exact (proj2 (proj2 (X14_failed_alert_not_retried posix_stem missing_world no_args
                         kernel_session eq_refl eq_refl H))).
Defined.

Lemma X15_witness :
  reachable posix_stem
    (session_of (run_command posix_stem (CmdException sample_world no_args)
                   kernel_session))
  /\ enable_alerts
       (session_of (run_command posix_stem (CmdException sample_world no_args)
                      kernel_session)) =
     (Normal tt,
      session_of (run_command posix_stem (CmdException sample_world no_args)
                    kernel_session),
      map EvPrint BANNER).
Proof.
  assert (R : reachable posix_stem
                (session_of (run_command posix_stem
                               (CmdException sample_world no_args) kernel_session)))
    by (apply reach_step; exact kernel_session_reachable).
  split; [exact R|].
  apply (X15_enable_alerts_only_prints posix_stem _ R).
Defined.

Lemma X16_witness :
  In (EvPopen [lit "/usr/bin/python3"; lit "/pkg/_show_alert.py"; lit "error";
               lit "ValueError: bad value"; lit "analysis"])
     (trace_of (uncaught_exception posix_stem sample_world no_args kernel_session))
  /\ exists error_msg label,
       main (lit "09:00:00 AM")
         [lit "/pkg/_show_alert.py"; lit "error"; lit "ValueError: bad value";
          lit "analysis"] =
       Shown (show_alert_window (lit "09:00:00 AM") false error_msg label).
Proof.
  assert (H : In (EvPopen [lit "/usr/bin/python3"; lit "/pkg/_show_alert.py";
                           lit "error"; lit "ValueError: bad value"; lit "analysis"])
                (trace_of (uncaught_exception posix_stem sample_world no_args
                             kernel_session)))
    by (vm_compute; right; right; left; reflexivity).
  split; [exact H|].
  destruct (X16_automatic_alert_is_an_error_window posix_stem sample_world no_args
              kernel_session _ (lit "09:00:00 AM") H)
    as (error_msg & label & _ & _ & E & _).
  exists error_msg, label. exact E.
Defined.
